(** * pydantic-ai: the OpenAI model adapter and the agent run loop

    A shallow embedding of [pydantic_ai/models/openai.py] (request
    construction, response processing, the streamed-response accumulators)
    and of the parts of the agent run loop and of the result schema that
    [tests/test_agent.py] exercises.

    Conventions.
    - Python [None] is [None : option _]; an [Optional[T]] field is an
      [option T].
    - A Python exception is a value of [exn]; a call that may raise returns
      a [result].
    - A [dict] whose iteration order is observed is an insertion-ordered
      association list ([PyDict]); a [dict] that is only looked up and merged
      is a [gmap].
    - An [AsyncStream] of chunks is the finite list of the chunks it still
      has to deliver; [__anext__] on the stream pops the head and raises
      [StopAsyncIteration] on the empty list.
    - A [datetime] built by [datetime.fromtimestamp(s, tz=timezone.utc)] is
      represented by its number of seconds [s]; the embedding assumes [s] in
      the range [datetime] can represent. Every such [datetime] is truthy. *)

From Stdlib Require Import ZArith String List Lia DecimalString.
From stdpp Require Import base option list strings gmap.
Local Open Scope Z_scope.

(** ** Python runtime *)

Inductive exn : Type :=
| StopAsyncIteration
| IndexError
| AssertionError
| RuntimeError (message : string)
| UnexpectedModelBehavior (message : string).

Inductive result (A : Type) : Type :=
| Ok (a : A)
| Raise (e : exn).
Arguments Ok {A} a.
Arguments Raise {A} e.

#[global] Instance result_ret : MRet result := fun _ a => Ok a.

#[global] Instance result_bind : MBind result := fun _ _ k r =>
  match r with
  | Ok a => k a
  | Raise e => Raise e
  end.

(** [[f(x) for x in xs]] where [f] may raise: the first exception wins. *)
Fixpoint result_map {A B : Type} (f : A -> result B) (xs : list A) : result (list B) :=
  match xs with
  | [] => Ok []
  | x :: xs' => y ← f x; ys ← result_map f xs'; Ok (y :: ys)
  end.

(** The double-quote character, for JSON text. *)
Definition dquote : string := String (Ascii.ascii_of_nat 34) EmptyString.

(** Modelled from the spec: [_utils.add_optional(a, b)], [_utils.py] not being
    among the sources. Section 4.2 says a present incoming fragment is
    concatenated onto the existing one by string append, never replacing it,
    and section 9 that the two fields are independently nullable. *)
Definition add_optional (a b : option string) : option string :=
  match a, b with
  | None, _ => b
  | Some _, None => a
  | Some x, Some y => Some (x +:+ y)
  end.

(** [a or b] on an optional value all of whose inhabitants are truthy. *)
Definition py_or {A : Type} (a : option A) (b : A) : A :=
  match a with
  | Some x => x
  | None => b
  end.

(** An insertion-ordered [dict] with [int] keys. *)
Module PyDict.
Section Dict.
Context {V : Type}.

Definition t : Type := list (Z * V).

Definition empty : t := [].

(** [d.get(k)] *)
Fixpoint get (k : Z) (d : t) : option V :=
  match d with
  | [] => None
  | (k', v) :: d' => if Z.eqb k k' then Some v else get k d'
  end.

(** [d[k] = v]: an existing key keeps its position, a new key goes last. *)
Fixpoint set (k : Z) (v : V) (d : t) : t :=
  match d with
  | [] => [(k, v)]
  | (k', v') :: d' => if Z.eqb k k' then (k', v) :: d' else (k', v') :: set k v d'
  end.

(** [d.keys()] and [d.values()], in insertion order. *)
Definition keys (d : t) : list Z := map fst d.
Definition values (d : t) : list V := map snd d.

(** [{key(x): x for x in xs}] *)
Definition comprehension (key : V -> Z) (xs : list V) : t :=
  fold_left (fun d x => set (key x) x d) xs empty.

End Dict.
Arguments t V : clear implicits.
End PyDict.

(** ** [pydantic_ai.messages]

    [messages.py] is not among the sources; the types below have the
    constructors and the fields that [openai.py] reads and that the tests
    write. *)

(** A [datetime], as its number of seconds since the epoch, UTC. *)
Definition datetime : Type := Z.

(** [datetime.fromtimestamp(seconds, tz=timezone.utc)] *)
Definition fromtimestamp (seconds : Z) : datetime := seconds.

(** Modelled from the spec: a value of a parsed key-to-value mapping of
    arguments (section 3), as far as the tests use them. *)
Inductive JsonValue : Type :=
| JNull
| JBool (b : bool)
| JInt (i : Z)
| JStr (s : string).

(** Modelled from the spec: the arguments of a tool call are a raw
    JSON-encoded string or a parsed mapping (section 3); [ArgsJson] and
    [ArgsDict] in the tests. *)
Inductive ArgsT : Type :=
| ArgsJson (args_json : string)
| ArgsDict (args_dict : list (string * JsonValue)).

Module ToolCall.
(** Modelled from the spec: [ToolCall] (section 3), with the field names of
    the tests. *)
Record t : Type := mk {
  tool_name : string;
  args : ArgsT;
  tool_call_id : option string
}.

(** Modelled from the spec: [ToolCall.from_json(tool_name, args_json,
    tool_call_id)], a call with raw JSON arguments (section 3); the tests
    compare its result with [ToolCall(tool_name=.., args=ArgsJson(..))]. *)
Definition from_json (tool_name : string) (args_json : string)
    (tool_call_id : option string) : t :=
  mk tool_name (ArgsJson args_json) tool_call_id.

(** Modelled from the spec: [ToolCall.from_dict(tool_name, args_dict)], a
    call with parsed arguments (section 3). *)
Definition from_dict (tool_name : string) (args_dict : list (string * JsonValue)) : t :=
  mk tool_name (ArgsDict args_dict) None.
End ToolCall.

Module ErrorDetails.
(** Modelled from the spec: one structured error record of a data-validation
    failure, with its kind, field path, message and offending input
    (section 4.4), as in the [RetryPrompt] of
    [test_result_pydantic_model_retry]. *)
Record t : Type := mk {
  type : string;
  loc : list string;
  msg : string;
  input : JsonValue
}.
End ErrorDetails.

(** Modelled from the spec: the content of a [RetryPrompt], a text or a list
    of error records (section 4.4). *)
Inductive RetryContent : Type :=
| RetryText (text : string)
| RetryErrors (errors : list ErrorDetails.t).

(** Modelled from the spec: the two responses of a model (sections 3 and
    4.1). *)
Inductive ModelAnyResponse : Type :=
| ModelTextResponse (content : string) (timestamp : datetime)
| ModelStructuredResponse (calls : list ToolCall.t) (timestamp : datetime).

(** Modelled from the spec: [Message], tagged by role (section 3); the
    [SystemPrompt] of the tests' snapshots has a content only. *)
Inductive Message : Type :=
| SystemPrompt (content : string)
| UserPrompt (content : string) (timestamp : datetime)
| ToolReturn (tool_name : string) (content : string)
    (tool_call_id : option string) (timestamp : datetime)
| RetryPrompt (content : RetryContent) (tool_name : option string)
    (tool_call_id : option string) (timestamp : datetime)
| ModelResponse (response : ModelAnyResponse).

(** [m.role == 'system'] *)
Definition is_system (m : Message) : bool :=
  match m with
  | SystemPrompt _ => true
  | _ => false
  end.

(** ** [pydantic_ai.result.Cost] *)

Module Cost.
(** Modelled from the spec: [result.Cost], [result.py] not being among the
    sources. Section 3: three integer counters and a mapping of named
    sub-counters. *)
Record t : Type := mk {
  request_tokens : Z;
  response_tokens : Z;
  total_tokens : Z;
  details : gmap string Z
}.

(** Modelled from the spec: [Cost()], the identity value with all-zero and
    empty fields (section 3). *)
Definition empty : t := mk 0 0 0 ∅.

(** Modelled from the spec: [Cost.__add__], which sums the numeric fields and
    unions [details], summing values on key collision (section 3). *)
Definition add (a b : t) : t :=
  mk (request_tokens a + request_tokens b)
     (response_tokens a + response_tokens b)
     (total_tokens a + total_tokens b)
     (union_with (fun x y => Some (x + y)) (details a) (details b)).

(** The costs of a sequence of chunks, added from left to right. *)
Definition sum (cs : list t) : t := fold_left add cs empty.
End Cost.

(** ** [pydantic_ai.tools.ToolDefinition] *)

Module ToolDefinition.
(** Modelled from the spec: [ToolDefinition] (section 3), with the field
    names of the tests' snapshots; [tools.py] is not among the sources. *)
Record t : Type := mk {
  name : string;
  description : string;
  parameters_json_schema : string;
  outer_typed_dict_key : option string
}.
End ToolDefinition.

(** ** The [openai] client types the adapter reads and builds *)

Module CompletionUsage.
(** The two [*_tokens_details] fields hold what
    [model_dump(exclude_none=True)] returns for them. *)
Record t : Type := mk {
  prompt_tokens : Z;
  completion_tokens : Z;
  total_tokens : Z;
  completion_tokens_details : option (gmap string Z);
  prompt_tokens_details : option (gmap string Z)
}.
End CompletionUsage.

Module ChoiceDeltaToolCallFunction.
Record t : Type := mk {
  name : option string;
  arguments : option string
}.
End ChoiceDeltaToolCallFunction.

Module ChoiceDeltaToolCall.
Record t : Type := mk {
  index : Z;
  id : option string;
  function : option ChoiceDeltaToolCallFunction.t
}.
End ChoiceDeltaToolCall.

Module ChoiceDelta.
Record t : Type := mk {
  content : option string;
  tool_calls : option (list ChoiceDeltaToolCall.t)
}.
End ChoiceDelta.

Module ChunkChoice.
Record t : Type := mk {
  delta : ChoiceDelta.t;
  finish_reason : option string
}.
End ChunkChoice.

Module ChatCompletionChunk.
Record t : Type := mk {
  created : Z;
  choices : list ChunkChoice.t;
  usage : option CompletionUsage.t
}.
End ChatCompletionChunk.

Module FunctionCall.
Record t : Type := mk {
  name : string;
  arguments : string
}.
End FunctionCall.

Module ChatCompletionMessageToolCall.
Record t : Type := mk {
  id : string;
  function : FunctionCall.t
}.
End ChatCompletionMessageToolCall.

Module ChatCompletionMessage.
Record t : Type := mk {
  content : option string;
  tool_calls : option (list ChatCompletionMessageToolCall.t)
}.
End ChatCompletionMessage.

Module Choice.
Record t : Type := mk {
  message : ChatCompletionMessage.t
}.
End Choice.

Module ChatCompletion.
Record t : Type := mk {
  created : Z;
  choices : list Choice.t;
  usage : option CompletionUsage.t
}.
End ChatCompletion.

(** [chat.ChatCompletion | ChatCompletionChunk]: both carry [usage]. *)
Class HasUsage (R : Type) : Type := usage_of : R -> option CompletionUsage.t.

#[global] Instance ChatCompletion_usage : HasUsage ChatCompletion.t :=
  ChatCompletion.usage.

#[global] Instance ChatCompletionChunk_usage : HasUsage ChatCompletionChunk.t :=
  ChatCompletionChunk.usage.

(** [chat.ChatCompletionToolParam], always of type ['function']. *)
Module ChatCompletionToolParam.
Record t : Type := mk {
  name : string;
  description : string;
  parameters : string
}.
End ChatCompletionToolParam.

Module ChatCompletionMessageToolCallParam.
Record t : Type := mk {
  id : string;
  name : string;
  arguments : string
}.
End ChatCompletionMessageToolCallParam.

Inductive ChatCompletionMessageParam : Type :=
| ChatCompletionSystemMessageParam (content : string)
| ChatCompletionUserMessageParam (content : string)
| ChatCompletionToolMessageParam (tool_call_id : string) (content : string)
| ChatCompletionAssistantMessageParam (content : option string)
    (tool_calls : option (list ChatCompletionMessageToolCallParam.t)).

Inductive ToolChoice : Type :=
| tool_choice_none
| tool_choice_required
| tool_choice_auto.

(** The keyword arguments of [client.chat.completions.create]; an argument
    passed as [NOT_GIVEN] is [None]. *)
Module CompletionCreateParams.
Record t : Type := mk {
  model : string;
  messages : list ChatCompletionMessageParam;
  n : Z;
  parallel_tool_calls : option bool;
  tools : option (list ChatCompletionToolParam.t);
  tool_choice : option ToolChoice;
  stream : bool;
  stream_options_include_usage : option bool
}.
End CompletionCreateParams.

(** ** [pydantic_ai.models.openai] *)

(** [_map_cost(response)] *)
Definition _map_cost {R : Type} `{HasUsage R} (response : R) : Cost.t :=
  match usage_of response with
  | None => Cost.empty
  | Some usage =>
      let details : gmap string Z := ∅ in
      let details :=
        match CompletionUsage.completion_tokens_details usage with
        | Some d => d ∪ details
        | None => details
        end in
      let details :=
        match CompletionUsage.prompt_tokens_details usage with
        | Some d => d ∪ details
        | None => details
        end in
      Cost.mk (CompletionUsage.prompt_tokens usage)
              (CompletionUsage.completion_tokens usage)
              (CompletionUsage.total_tokens usage)
              details
  end.

Module OpenAIModel.
(** [OpenAIModel._map_tool_definition(f)] *)
Definition _map_tool_definition (f : ToolDefinition.t) : ChatCompletionToolParam.t :=
  ChatCompletionToolParam.mk (ToolDefinition.name f) (ToolDefinition.description f)
    (ToolDefinition.parameters_json_schema f).
End OpenAIModel.

Module OpenAIAgentModel.
Record t : Type := mk {
  model_name : string;
  allow_text_result : bool;
  tools : list ChatCompletionToolParam.t
}.
End OpenAIAgentModel.

(** Modelled from the spec: [check_allow_model_requests()] of
    [models/__init__.py], which is not among the sources. Section 6: when the
    flag is false, reaching a real model raises an error naming the flag. *)
Definition check_allow_model_requests (ALLOW_MODEL_REQUESTS : bool) : result unit :=
  if ALLOW_MODEL_REQUESTS then Ok tt
  else Raise (RuntimeError
    "Model requests are not allowed, since ALLOW_MODEL_REQUESTS is False").

(** [OpenAIModel.agent_model(function_tools, allow_text_result, result_tools)];
    the process-wide flag is an explicit argument. *)
Definition agent_model (ALLOW_MODEL_REQUESTS : bool) (model_name : string)
    (function_tools : list ToolDefinition.t) (allow_text_result : bool)
    (result_tools : list ToolDefinition.t) : result OpenAIAgentModel.t :=
  _ ← check_allow_model_requests ALLOW_MODEL_REQUESTS;
  let tools := map OpenAIModel._map_tool_definition function_tools in
  let tools :=
    match result_tools with
    | [] => tools
    | _ :: _ => tools ++ map OpenAIModel._map_tool_definition result_tools
    end in
  Ok (OpenAIAgentModel.mk model_name allow_text_result tools).

(** Modelled from the spec: [_utils.guard_tool_call_id(t, model_source)],
    [_utils.py] not being among the sources. Section 3: the id is required
    for a message addressed to a tool-call-capable provider and its absence
    is a guarded failure; section 7: the failure is fatal. *)
Definition _guard_tool_call_id (tool_call_id : option string) : result string :=
  match tool_call_id with
  | Some i => Ok i
  | None => Raise AssertionError
  end.

(** [_map_tool_call(t)] *)
Definition _map_tool_call (t : ToolCall.t) : result ChatCompletionMessageToolCallParam.t :=
  match ToolCall.args t with
  | ArgsJson args_json =>
      i ← _guard_tool_call_id (ToolCall.tool_call_id t);
      Ok (ChatCompletionMessageToolCallParam.mk i (ToolCall.tool_name t) args_json)
  | ArgsDict _ => Raise AssertionError
  end.

Section Requests.
(** [ToolReturn.model_response_str()] and [RetryPrompt.model_response()]
    render a message's content as text; [messages.py] is not among the
    sources and the adapter only forwards what they return. *)
Variable model_response_str : string -> string.
Variable model_response : RetryContent -> string.

(** [OpenAIAgentModel._map_message(message)] *)
Definition _map_message (message : Message) : result ChatCompletionMessageParam :=
  match message with
  | SystemPrompt content => Ok (ChatCompletionSystemMessageParam content)
  | UserPrompt content _ => Ok (ChatCompletionUserMessageParam content)
  | ToolReturn _ content tool_call_id _ =>
      i ← _guard_tool_call_id tool_call_id;
      Ok (ChatCompletionToolMessageParam i (model_response_str content))
  | RetryPrompt content tool_name tool_call_id _ =>
      match tool_name with
      | None => Ok (ChatCompletionUserMessageParam (model_response content))
      | Some _ =>
          i ← _guard_tool_call_id tool_call_id;
          Ok (ChatCompletionToolMessageParam i (model_response content))
      end
  | ModelResponse (ModelTextResponse content _) =>
      Ok (ChatCompletionAssistantMessageParam (Some content) None)
  | ModelResponse (ModelStructuredResponse calls _) =>
      tool_calls ← result_map _map_tool_call calls;
      Ok (ChatCompletionAssistantMessageParam None (Some tool_calls))
  end.

(** The [tool_choice] local of [_completions_create]. *)
Definition tool_choice_of (self : OpenAIAgentModel.t) : option ToolChoice :=
  match OpenAIAgentModel.tools self with
  | [] => None
  | _ :: _ =>
      if negb (OpenAIAgentModel.allow_text_result self) then Some tool_choice_required
      else Some tool_choice_auto
  end.

(** [OpenAIAgentModel._completions_create(messages, stream)], up to the
    arguments it hands to [client.chat.completions.create]. *)
Definition _completions_create (self : OpenAIAgentModel.t) (messages : list Message)
    (stream : bool) : result CompletionCreateParams.t :=
  let tool_choice := tool_choice_of self in
  openai_messages ← result_map _map_message messages;
  Ok (CompletionCreateParams.mk
        (OpenAIAgentModel.model_name self)
        openai_messages
        1
        (match OpenAIAgentModel.tools self with [] => None | _ :: _ => Some true end)
        (match OpenAIAgentModel.tools self with [] => None | ts => Some ts end)
        tool_choice
        stream
        (if stream then Some true else None)).

End Requests.

(** [OpenAIAgentModel._process_response(response)] *)
Definition _process_response (response : ChatCompletion.t) : result ModelAnyResponse :=
  let timestamp := fromtimestamp (ChatCompletion.created response) in
  match ChatCompletion.choices response with
  | [] => Raise IndexError
  | choice :: _ =>
      let message := Choice.message choice in
      match ChatCompletionMessage.tool_calls message with
      | Some tool_calls =>
          Ok (ModelStructuredResponse
                (map (fun c =>
                        ToolCall.from_json
                          (FunctionCall.name (ChatCompletionMessageToolCall.function c))
                          (FunctionCall.arguments (ChatCompletionMessageToolCall.function c))
                          (Some (ChatCompletionMessageToolCall.id c)))
                     tool_calls)
                timestamp)
      | None =>
          match ChatCompletionMessage.content message with
          | Some content => Ok (ModelTextResponse content timestamp)
          | None => Raise AssertionError
          end
      end
  end.

(** [OpenAIStreamTextResponse] *)
Module OpenAIStreamTextResponse.
Record t : Type := mk {
  _first : option string;
  _response : list ChatCompletionChunk.t;
  _timestamp : datetime;
  _cost : Cost.t;
  _buffer : list string
}.

(** [__anext__(self)]: the updated object and how the call ends. *)
Definition __anext__ (self : t) : t * result unit :=
  match _first self with
  | Some first =>
      (mk None (_response self) (_timestamp self) (_cost self) (_buffer self ++ [first]),
       Ok tt)
  | None =>
      match _response self with
      | [] => (self, Raise StopAsyncIteration)
      | chunk :: rest =>
          let cost := Cost.add (_cost self) (_map_cost chunk) in
          let self' := mk None rest (_timestamp self) cost (_buffer self) in
          match ChatCompletionChunk.choices chunk with
          | [] => (self', Raise StopAsyncIteration)
          | choice :: _ =>
              match ChunkChoice.finish_reason choice,
                    ChoiceDelta.content (ChunkChoice.delta choice) with
              | None, None => (self', Raise AssertionError)
              | _, Some content =>
                  (mk None rest (_timestamp self) cost (_buffer self ++ [content]), Ok tt)
              | Some _, None => (self', Ok tt)
              end
          end
      end
  end.

(** [get(self)] is a generator function: calling it runs nothing and returns
    a generator that refers to [self]. The generator is at some position of
    the iteration [yield from self._buffer] over the buffer, the very list
    that [__anext__] appends to, or it has finished. *)
Inductive get_generator : Type :=
| get_iterating (index : nat)
| get_finished.

Definition get (self : t) : get_generator := get_iterating 0.

(** [next(g)] on a generator of [get(self)], with the object as it is then:
    what is yielded ([None] for [StopIteration]), the generator and the
    object afterwards. The list iterator yields the fragment at its position
    if the buffer has one; otherwise it is exhausted, the generator goes on to
    [self._buffer.clear()] and returns. *)
Definition get_next (g : get_generator) (self : t) : option string * get_generator * t :=
  match g with
  | get_finished => (None, get_finished, self)
  | get_iterating index =>
      match _buffer self !! index with
      | Some fragment => (Some fragment, get_iterating (S index), self)
      | None =>
          (None, get_finished,
           mk (_first self) (_response self) (_timestamp self) (_cost self) [])
      end
  end.

Definition cost (self : t) : Cost.t := _cost self.

Definition timestamp (self : t) : datetime := _timestamp self.
End OpenAIStreamTextResponse.

(** [OpenAIStreamStructuredResponse] *)
Module OpenAIStreamStructuredResponse.
Record t : Type := mk {
  _response : list ChatCompletionChunk.t;
  _delta_tool_calls : PyDict.t ChoiceDeltaToolCall.t;
  _timestamp : datetime;
  _cost : Cost.t
}.

(** The body of the [for new in ...] loop of [__anext__]. An object stored in
    the dictionary is referenced from nowhere else once its chunk has been
    processed, so mutating it in place is replacing the dictionary's value. *)
Definition merge_tool_call (delta_tool_calls : PyDict.t ChoiceDeltaToolCall.t)
    (new : ChoiceDeltaToolCall.t) : PyDict.t ChoiceDeltaToolCall.t :=
  let index := ChoiceDeltaToolCall.index new in
  match PyDict.get index delta_tool_calls with
  | Some current =>
      match ChoiceDeltaToolCall.function current with
      | None =>
          PyDict.set index
            (ChoiceDeltaToolCall.mk (ChoiceDeltaToolCall.index current)
               (ChoiceDeltaToolCall.id current) (ChoiceDeltaToolCall.function new))
            delta_tool_calls
      | Some current_function =>
          match ChoiceDeltaToolCall.function new with
          | Some new_function =>
              let name :=
                add_optional (ChoiceDeltaToolCallFunction.name current_function)
                             (ChoiceDeltaToolCallFunction.name new_function) in
              let arguments :=
                add_optional (ChoiceDeltaToolCallFunction.arguments current_function)
                             (ChoiceDeltaToolCallFunction.arguments new_function) in
              PyDict.set index
                (ChoiceDeltaToolCall.mk (ChoiceDeltaToolCall.index current)
                   (ChoiceDeltaToolCall.id current)
                   (Some (ChoiceDeltaToolCallFunction.mk name arguments)))
                delta_tool_calls
          | None => delta_tool_calls
          end
      end
  | None => PyDict.set index new delta_tool_calls
  end.

(** [__anext__(self)]: the updated object and how the call ends.
    [choice.delta.tool_calls or []] is the list itself, or [[]] for [None]. *)
Definition __anext__ (self : t) : t * result unit :=
  match _response self with
  | [] => (self, Raise StopAsyncIteration)
  | chunk :: rest =>
      let cost := Cost.add (_cost self) (_map_cost chunk) in
      let self' := mk rest (_delta_tool_calls self) (_timestamp self) cost in
      match ChatCompletionChunk.choices chunk with
      | [] => (self', Raise StopAsyncIteration)
      | choice :: _ =>
          match ChunkChoice.finish_reason choice with
          | Some _ => (self', Raise StopAsyncIteration)
          | None =>
              match ChoiceDelta.content (ChunkChoice.delta choice) with
              | Some _ => (self', Raise AssertionError)
              | None =>
                  let news := default [] (ChoiceDelta.tool_calls (ChunkChoice.delta choice)) in
                  (mk rest (fold_left merge_tool_call news (_delta_tool_calls self))
                      (_timestamp self) cost,
                   Ok tt)
              end
          end
      end
  end.

(** [get(self)] *)
Definition get (self : t) : ModelAnyResponse :=
  let calls :=
    fold_left
      (fun (calls : list ToolCall.t) (c : ChoiceDeltaToolCall.t) =>
         match ChoiceDeltaToolCall.function c with
         | Some f =>
             match ChoiceDeltaToolCallFunction.name f,
                   ChoiceDeltaToolCallFunction.arguments f with
             | Some name, Some arguments =>
                 calls ++ [ToolCall.from_json name arguments (ChoiceDeltaToolCall.id c)]
             | _, _ => calls
             end
         | None => calls
         end)
      (PyDict.values (_delta_tool_calls self)) [] in
  ModelStructuredResponse calls (_timestamp self).

Definition cost (self : t) : Cost.t := _cost self.

Definition timestamp (self : t) : datetime := _timestamp self.
End OpenAIStreamStructuredResponse.

Inductive EitherStreamedResponse : Type :=
| StreamText (r : OpenAIStreamTextResponse.t)
| StreamStructured (r : OpenAIStreamStructuredResponse.t).

(** The [while True] loop of [OpenAIAgentModel._process_streamed_response],
    by recursion on the chunks the stream still has. *)
Fixpoint _process_streamed_response_loop (response : list ChatCompletionChunk.t)
    (timestamp : option datetime) (start_cost : Cost.t) : result EitherStreamedResponse :=
  match response with
  | [] =>
      Raise (UnexpectedModelBehavior "Streamed response ended without content or tool calls")
  | chunk :: rest =>
      let timestamp := py_or timestamp (fromtimestamp (ChatCompletionChunk.created chunk)) in
      let start_cost := Cost.add start_cost (_map_cost chunk) in
      match ChatCompletionChunk.choices chunk with
      | choice :: _ =>
          let delta := ChunkChoice.delta choice in
          match ChoiceDelta.content delta with
          | Some content =>
              Ok (StreamText
                    (OpenAIStreamTextResponse.mk (Some content) rest timestamp start_cost []))
          | None =>
              match ChoiceDelta.tool_calls delta with
              | Some tool_calls =>
                  Ok (StreamStructured
                        (OpenAIStreamStructuredResponse.mk rest
                           (PyDict.comprehension ChoiceDeltaToolCall.index tool_calls)
                           timestamp start_cost))
              | None => _process_streamed_response_loop rest (Some timestamp) start_cost
              end
          end
      | [] => _process_streamed_response_loop rest (Some timestamp) start_cost
      end
  end.

(** [OpenAIAgentModel._process_streamed_response(response)] *)
Definition _process_streamed_response (response : list ChatCompletionChunk.t)
    : result EitherStreamedResponse :=
  _process_streamed_response_loop response None Cost.empty.

(** ** The result schema (spec, section 4.3) *)

(** Modelled from the spec: what validating raw arguments against a member
    type gives, the typed value or the error records (sections 4.3 and 4.4);
    the validation itself is the external engine's. *)
Inductive ValidationOutcome (ResultData : Type) : Type :=
| Valid (data : ResultData)
| Invalid (errors : list ErrorDetails.t).
Arguments Valid {ResultData} data.
Arguments Invalid {ResultData} errors.

Module MemberType.
(** Modelled from the spec: one member of the declared result type, other
    than plain [str] (section 4.3): the name of the type, its docstring,
    whether its shape is an object, its JSON schema and its validation, the
    last two being the work of the external schema and validation engines. *)
Record t (ResultData : Type) : Type := mk {
  type_name : string;
  docstring : option string;
  object_like : bool;
  json_schema : string;
  validate : ArgsT -> ValidationOutcome ResultData
}.
Arguments mk {ResultData}.
Arguments type_name {ResultData}.
Arguments docstring {ResultData}.
Arguments object_like {ResultData}.
Arguments json_schema {ResultData}.
Arguments validate {ResultData}.
End MemberType.

(** Modelled from the spec: a declared result type is the list of the
    members of its union, a single type being a union of one (section 4.3). *)
Inductive ResultMember (ResultData : Type) : Type :=
| member_str
| member_type (m : MemberType.t ResultData).
Arguments member_str {ResultData}.
Arguments member_type {ResultData} m.

Module ResultTool.
(** Modelled from the spec: a result tool, its definition and the member
    type it validates against (section 4.3). *)
Record t (ResultData : Type) : Type := mk {
  tool_def : ToolDefinition.t;
  member : MemberType.t ResultData
}.
Arguments mk {ResultData}.
Arguments tool_def {ResultData}.
Arguments member {ResultData}.
End ResultTool.

Module ResultSchema.
Section Schema.
Context {ResultData : Type}.

(** Modelled from the spec: the result schema, its tools by name and whether
    plain text is a result (section 4.3). *)
Record t : Type := mk {
  tools : list (string * ResultTool.t ResultData);
  allow_text_result : bool
}.

(** Modelled from the spec: the generic closing-conversation description
    (section 4.3), with the text [test_response_tuple] and
    [test_response_union_allow_str] show. *)
Definition DEFAULT_DESCRIPTION : string :=
  "The final response which ends this conversation".

(** Modelled from the spec: the description of a result tool, [_result.py]
    not being among the sources. Section 4.3 prefixes the member's name when
    the union has more than one member and falls back on a generic
    description; [test_response_multiple_return_tools] pins both cases of a
    two-member union: ['Foo: The final response which ends this conversation']
    for the member without a docstring, ['This is a bar model.'] for the
    member with one. *)
Definition tool_description (m : MemberType.t ResultData) (multiple : bool) : string :=
  match MemberType.docstring m with
  | Some doc => doc
  | None =>
      if multiple then MemberType.type_name m +:+ ": " +:+ DEFAULT_DESCRIPTION
      else DEFAULT_DESCRIPTION
  end.

(** Modelled from the spec: the tool built for one member (section 4.3). A
    shape that is not an object is wrapped in a single named field,
    ['response'] in [test_response_tuple]. *)
Definition build_tool (name : string) (multiple : bool) (m : MemberType.t ResultData)
    : string * ResultTool.t ResultData :=
  (name,
   ResultTool.mk
     (ToolDefinition.mk name (tool_description m multiple) (MemberType.json_schema m)
        (if MemberType.object_like m then None else Some "response"))
     m).

(** Modelled from the spec: the members of the union that get a tool, all
    but plain text (section 4.3). *)
Fixpoint tool_members (result_type : list (ResultMember ResultData))
    : list (MemberType.t ResultData) :=
  match result_type with
  | [] => []
  | member_str :: rest => tool_members rest
  | member_type m :: rest => m :: tool_members rest
  end.

(** Modelled from the spec: the member is plain text (section 4.3). *)
Definition is_member_str (m : ResultMember ResultData) : bool :=
  match m with
  | member_str => true
  | member_type _ => false
  end.

(** Modelled from the spec: the schema derived from a declared result type
    (section 4.3). One type gives the single tool [final_result], a union of
    several gives one tool [final_result_<MemberTypeName>] per member, and
    text results are allowed iff plain text is one of the members. *)
Definition build (result_type : list (ResultMember ResultData)) : t :=
  let allow_text_result := existsb is_member_str result_type in
  match tool_members result_type with
  | [] => mk [] allow_text_result
  | [m] => mk [build_tool "final_result" false m] allow_text_result
  | ms =>
      mk (map (fun m => build_tool ("final_result_" +:+ MemberType.type_name m) true m) ms)
         allow_text_result
  end.

(** Modelled from the spec: looking a result tool up by the name the model
    called (section 4.4, "name matches a result-schema tool"). *)
Fixpoint find_tool_in (tools : list (string * ResultTool.t ResultData)) (tool_name : string)
    : option (ResultTool.t ResultData) :=
  match tools with
  | [] => None
  | (name, tool) :: rest =>
      if String.eqb name tool_name then Some tool else find_tool_in rest tool_name
  end.

(** Modelled from the spec: the result tool of a schema that has the given
    name (section 4.4). *)
Definition find_tool (self : t) (tool_name : string) : option (ResultTool.t ResultData) :=
  find_tool_in (tools self) tool_name.

(** Modelled from the spec: the names of the result tools (section 4.4). *)
Definition tool_names (self : t) : list string := map fst (tools self).

(** Modelled from the spec: the tool definitions handed to the model adapter
    (section 4.1). *)
Definition tool_defs (self : t) : list ToolDefinition.t :=
  map (fun nt => ResultTool.tool_def (snd nt)) (tools self).

(** Modelled from the spec: dispatching a call to a result tool validates the
    arguments against the member type the tool was built for (section 4.3,
    "validate against the matching member type"). *)
Definition dispatch (self : t) (call : ToolCall.t) : option (ValidationOutcome ResultData) :=
  match find_tool self (ToolCall.tool_name call) with
  | Some tool => Some (MemberType.validate (ResultTool.member tool) (ToolCall.args call))
  | None => None
  end.

End Schema.
Arguments t ResultData : clear implicits.
End ResultSchema.

(** ** The run loop (spec, section 4.4) *)

(** Modelled from the spec: what calling a function tool gives, its
    stringified return value or the recoverable retry signal with its
    message (section 4.4). *)
Inductive ToolOutcome : Type :=
| ToolOk (content : string)
| ModelRetry (message : string).

Module FunctionTool.
(** Modelled from the spec: a registered function tool, its name and what
    invoking it on the arguments gives (section 4.4). *)
Record t : Type := mk {
  name : string;
  run : ArgsT -> ToolOutcome
}.
End FunctionTool.

(** A count printed in decimal, for error messages. *)
Definition decimal (n : nat) : string := NilZero.string_of_uint (Nat.to_uint n).

Module Agent.
Section Run.
Context {ResultData : Type}.

(** The clock reading stamped on the messages the loop itself creates. *)
Variable now : datetime.

(** How the list of valid tool names is written out in the unknown-tool
    retry prompt; neither the spec nor the tests fix it. *)
Variable tool_names_text : list string -> string.

(** Modelled from the spec: the agent's configuration, [agent.py] not being
    among the sources. The model is the adapter's [request] (section 4.1), a
    function of the history as the tests' [FunctionModel]s are; the result
    validator may change the data or ask for a retry (section 4.3). *)
Record t : Type := mk {
  model : list Message -> ModelAnyResponse * Cost.t;
  system_prompts : list string;
  function_tools : list FunctionTool.t;
  result_schema : ResultSchema.t ResultData;
  result_validator : ResultData -> ResultData + string;
  text_result : string -> ResultData;
  max_result_retries : nat
}.

(** Modelled from the spec: the default of one extra attempt after the first
    failure (section 4.4). *)
Definition DEFAULT_RETRIES : nat := 1.

(** Modelled from the spec: [RunResult] (section 3), with the field names of
    the tests' snapshots. *)
Record RunResult : Type := mkRunResult {
  _all_messages : list Message;
  _new_message_index : nat;
  data : ResultData;
  _cost : Cost.t
}.

(** Modelled from the spec: [all_messages()], the full history
    (section 3). *)
Definition all_messages (r : RunResult) : list Message := _all_messages r.

(** Modelled from the spec: [new_messages()] is the history sliced from the
    index (sections 3 and 8). *)
Definition new_messages (r : RunResult) : list Message :=
  drop (_new_message_index r) (_all_messages r).

(** Modelled from the spec: how a run ends (section 4.4); a fatal error
    leaves the history accumulated so far retrievable. [OutOfFuel] is the
    bounded model's answer when the loop has not ended yet. *)
Inductive RunOutcome : Type :=
| Done (r : RunResult)
| Fatal (e : exn) (last_run_messages : list Message)
| OutOfFuel.

(** Modelled from the spec: history bootstrapping (section 4.4). The
    configured system prompts are inserted only if the supplied history
    contains none, and the user prompt follows. The index of the first new
    message is taken after that insertion, as [test_run_with_history_new]
    pins it: [_new_message_index=5] for a supplied history of four messages
    without a system prompt. *)
Definition _prepare_messages (self : t) (user_prompt : string)
    (message_history : list Message) : nat * list Message :=
  let messages :=
    if existsb is_system message_history then message_history
    else map SystemPrompt (system_prompts self) ++ message_history in
  (length messages, messages ++ [UserPrompt user_prompt now]).

(** Modelled from the spec: the registered function tool of the given name
    (section 4.4). *)
Fixpoint find_function_tool (tools : list FunctionTool.t) (tool_name : string)
    : option FunctionTool.t :=
  match tools with
  | [] => None
  | tool :: rest =>
      if String.eqb (FunctionTool.name tool) tool_name then Some tool
      else find_function_tool rest tool_name
  end.

(** Modelled from the spec: the valid tool names, those of the function
    tools and those of the result schema (section 4.4). *)
Definition tool_names (self : t) : list string :=
  map FunctionTool.name (function_tools self)
  ++ ResultSchema.tool_names (result_schema self).

(** Modelled from the spec: one retry slot is consumed, and exceeding the
    maximum is fatal (section 4.4). The counter is shared by all failures of
    a run, which section 9 finds consistent with the observed scenarios. *)
Definition _incr_result_retry (self : t) (retries : nat) : result nat :=
  if Nat.ltb (max_result_retries self) (S retries) then
    Raise (UnexpectedModelBehavior
             ("Exceeded maximum retries (" +:+ decimal (max_result_retries self)
              +:+ ") for result validation"))
  else Ok (S retries).

(** Modelled from the spec: the content of the retry prompt for a name that
    matches no tool (section 4.4); [test_unknown_tool] shows the text for an
    agent without tools, ["Unknown tool name: 'foobar'. No tools available."]. *)
Definition unknown_tool_content (self : t) (tool_name : string) : string :=
  let names := tool_names self in
  "Unknown tool name: '" +:+ tool_name +:+ "'. " +:+
  match names with
  | [] => "No tools available."
  | _ :: _ => tool_names_text names
  end.

(** Modelled from the spec: what handling one call, or one response, leads
    to (section 4.4): on with new messages, done with the result, or a fatal
    error. *)
Inductive Step : Type :=
| Continue (new : list Message) (retries : nat)
| Finish (final : ResultData) (new : list Message)
| Abort (e : exn).

(** Modelled from the spec: a recoverable failure consumes a retry slot and
    then issues its retry prompt (sections 4.4 and 7). *)
Definition retry_with (self : t) (retries : nat) (prompt : Message) : Step :=
  match _incr_result_retry self retries with
  | Ok retries' => Continue [prompt] retries'
  | Raise e => Abort e
  end.

(** Modelled from the spec: handling one tool call (section 4.4): a function
    tool is invoked, a result tool validates and ends the run, and any other
    name draws the unknown-tool retry prompt. *)
Definition process_call (self : t) (retries : nat) (call : ToolCall.t) : Step :=
  let name := ToolCall.tool_name call in
  let id := ToolCall.tool_call_id call in
  match find_function_tool (function_tools self) name with
  | Some tool =>
      match FunctionTool.run tool (ToolCall.args call) with
      | ToolOk content => Continue [ToolReturn name content id now] retries
      | ModelRetry message =>
          retry_with self retries (RetryPrompt (RetryText message) (Some name) id now)
      end
  | None =>
      match ResultSchema.dispatch (result_schema self) call with
      | Some (Valid validated) =>
          match result_validator self validated with
          | inl final => Finish final [ToolReturn name "Final result processed." id now]
          | inr message =>
              retry_with self retries (RetryPrompt (RetryText message) (Some name) id now)
          end
      | Some (Invalid errors) =>
          retry_with self retries (RetryPrompt (RetryErrors errors) (Some name) id now)
      | None =>
          retry_with self retries
            (RetryPrompt (RetryText (unknown_tool_content self name)) None None now)
      end
  end.

(** Modelled from the spec: the calls of a structured response are processed
    in their listed order (section 4.4); a validated result ends the run at
    once. *)
Fixpoint process_calls (self : t) (retries : nat) (calls : list ToolCall.t)
    (new : list Message) : Step :=
  match calls with
  | [] => Continue new retries
  | call :: rest =>
      match process_call self retries call with
      | Continue messages retries' => process_calls self retries' rest (new ++ messages)
      | Finish final messages => Finish final (new ++ messages)
      | Abort e => Abort e
      end
  end.

(** Modelled from the spec: what the loop does on receiving a response
    (section 4.4). *)
Definition _handle_model_response (self : t) (retries : nat)
    (model_response : ModelAnyResponse) : Step :=
  match model_response with
  | ModelTextResponse content _ =>
      if ResultSchema.allow_text_result (result_schema self) then
        Finish (text_result self content) []
      else
        retry_with self retries
          (RetryPrompt
             (RetryText
                "Plain text responses are not permitted, please call one of the functions instead.")
             None None now)
  | ModelStructuredResponse [] _ =>
      Abort (UnexpectedModelBehavior "Received empty tool call message")
  | ModelStructuredResponse calls _ => process_calls self retries calls []
  end.

(** Modelled from the spec: the request/response loop (section 4.4),
    [AwaitingResponse -> ProcessResponse -> Done | RetryIssued | Fatal]. The
    fuel bounds the number of model requests. *)
Fixpoint run_loop (fuel : nat) (self : t) (new_message_index : nat)
    (messages : list Message) (retries : nat) (cost : Cost.t) : RunOutcome :=
  match fuel with
  | O => OutOfFuel
  | S fuel' =>
      let '(model_response, request_cost) := model self messages in
      let messages := messages ++ [ModelResponse model_response] in
      let cost := Cost.add cost request_cost in
      match _handle_model_response self retries model_response with
      | Finish final new =>
          Done (mkRunResult (messages ++ new) new_message_index final cost)
      | Continue new retries' =>
          run_loop fuel' self new_message_index (messages ++ new) retries' cost
      | Abort e => Fatal e messages
      end
  end.

(** Modelled from the spec: one run of the agent, from a prompt and an
    optional prior history to [Done] or [Fatal] (sections 2 and 4.4). *)
Definition run (fuel : nat) (self : t) (user_prompt : string)
    (message_history : list Message) : RunOutcome :=
  let '(new_message_index, messages) := _prepare_messages self user_prompt message_history in
  run_loop fuel self new_message_index messages 0%nat Cost.empty.

End Run.
Arguments t ResultData : clear implicits.
Arguments RunResult ResultData : clear implicits.
Arguments RunOutcome ResultData : clear implicits.
Arguments Step ResultData : clear implicits.
End Agent.

(** ** Spec-side predicates and consumers *)

(** The interface both streamed responses implement ([StreamTextResponse],
    [StreamStructuredResponse]): [__anext__] and [timestamp]. *)
Definition either_anext (r : EitherStreamedResponse) : EitherStreamedResponse * result unit :=
  match r with
  | StreamText t =>
      let '(t', o) := OpenAIStreamTextResponse.__anext__ t in (StreamText t', o)
  | StreamStructured s =>
      let '(s', o) := OpenAIStreamStructuredResponse.__anext__ s in (StreamStructured s', o)
  end.

Definition either_timestamp (r : EitherStreamedResponse) : datetime :=
  match r with
  | StreamText t => OpenAIStreamTextResponse.timestamp t
  | StreamStructured s => OpenAIStreamStructuredResponse.timestamp s
  end.

Definition either_cost (r : EitherStreamedResponse) : Cost.t :=
  match r with
  | StreamText t => OpenAIStreamTextResponse.cost t
  | StreamStructured s => OpenAIStreamStructuredResponse.cost s
  end.

(** The chunks the response has not consumed yet. *)
Definition either_response (r : EitherStreamedResponse) : list ChatCompletionChunk.t :=
  match r with
  | StreamText t => OpenAIStreamTextResponse._response t
  | StreamStructured s => OpenAIStreamStructuredResponse._response s
  end.

(** [n] calls of [__anext__], however each of them ends. *)
Fixpoint anext_times (n : nat) (r : EitherStreamedResponse) : EitherStreamedResponse :=
  match n with
  | O => r
  | S n' => anext_times n' (fst (either_anext r))
  end.

(** The same for the structured accumulator alone. *)
Fixpoint structured_anext_times (n : nat) (s : OpenAIStreamStructuredResponse.t)
    : OpenAIStreamStructuredResponse.t :=
  match n with
  | O => s
  | S n' => structured_anext_times n' (fst (OpenAIStreamStructuredResponse.__anext__ s))
  end.

(** Spec side of the merge (section 4.2): a present incoming fragment is
    appended to the existing one, an absent one leaves it as it is. *)
Definition appended (existing incoming merged : option string) : Prop :=
  match incoming with
  | None => merged = existing
  | Some fragment =>
      match existing with
      | None => merged = Some fragment
      | Some text => merged = Some (text +:+ fragment)
      end
  end.

(** Spec side of materialization (section 4.2): an in-progress call is
    complete when its name and its arguments are both present, and then
    gives one [ToolCall]. *)
Definition completed_call (c : ChoiceDeltaToolCall.t) : option ToolCall.t :=
  f ← ChoiceDeltaToolCall.function c;
  name ← ChoiceDeltaToolCallFunction.name f;
  arguments ← ChoiceDeltaToolCallFunction.arguments f;
  Some (ToolCall.mk name (ArgsJson arguments) (ChoiceDeltaToolCall.id c)).

(** The bootstrap's own test on a chunk: it has a first choice whose delta
    has a [content] or a [tool_calls] that is not [None]. *)
Definition has_content_or_tool_calls (chunk : ChatCompletionChunk.t) : bool :=
  match ChatCompletionChunk.choices chunk with
  | [] => false
  | choice :: _ =>
      let delta := ChunkChoice.delta choice in
      bool_decide (is_Some (ChoiceDelta.content delta))
      || bool_decide (is_Some (ChoiceDelta.tool_calls delta))
  end.

(** Spec side of the bootstrap (section 4.2): a chunk carries textual content
    or at least one tool-call delta. *)
Definition carries_content_or_tool_call_delta (chunk : ChatCompletionChunk.t) : bool :=
  match ChatCompletionChunk.choices chunk with
  | [] => false
  | choice :: _ =>
      let delta := ChunkChoice.delta choice in
      match ChoiceDelta.content delta, ChoiceDelta.tool_calls delta with
      | Some _, _ => true
      | None, Some (_ :: _) => true
      | None, _ => false
      end
  end.

(** Spec side of the bootstrap (section 4.2): the first informative chunk of
    a stream. *)
Definition first_informative_chunk (stream : list ChatCompletionChunk.t)
    : option ChatCompletionChunk.t :=
  List.find carries_content_or_tool_call_delta stream.

(** The error the bootstrap raises on a stream that ends too early. *)
Definition BOOTSTRAP_ERROR : exn :=
  UnexpectedModelBehavior "Streamed response ended without content or tool calls".

(** The timestamp the bootstrap loop holds after it has skipped some chunks. *)
Definition skip_timestamp (timestamp : option datetime) (skipped : list ChatCompletionChunk.t)
    : option datetime :=
  match skipped with
  | [] => timestamp
  | chunk :: _ => Some (py_or timestamp (fromtimestamp (ChatCompletionChunk.created chunk)))
  end.

(** The [ToolCall] the adapter makes of a call of a non-streamed response. *)
Definition tool_call_of (c : ChatCompletionMessageToolCall.t) : ToolCall.t :=
  ToolCall.mk (FunctionCall.name (ChatCompletionMessageToolCall.function c))
    (ArgsJson (FunctionCall.arguments (ChatCompletionMessageToolCall.function c)))
    (Some (ChatCompletionMessageToolCall.id c)).

(** Spec side of the dispatch (section 4.4): the name of a call matches
    neither a registered function tool nor a result-schema tool. *)
Definition matches_no_tool {ResultData : Type} (self : Agent.t ResultData)
    (call : ToolCall.t) : Prop :=
  ToolCall.tool_name call ∉ Agent.tool_names self.

(** Spec side of the retry prompt for an unknown tool (section 4.4). *)
Definition unknown_tool_prompt {ResultData : Type} (now : datetime)
    (tool_names_text : list string -> string) (self : Agent.t ResultData)
    (call : ToolCall.t) : Message :=
  RetryPrompt
    (RetryText
       ("Unknown tool name: '" +:+ ToolCall.tool_name call +:+ "'. " +:+
        match Agent.tool_names self with
        | [] => "No tools available."
        | _ :: _ => tool_names_text (Agent.tool_names self)
        end))
    None None now.

(** The error of a run that has used up its retries. *)
Definition retries_exceeded (max_retries : string) : exn :=
  UnexpectedModelBehavior
    ("Exceeded maximum retries (" +:+ max_retries +:+ ") for result validation").

(** Spec side of the bootstrapping (section 4.4): the system prompts a run
    inserts in front of the supplied history. *)
Definition inserted_system_prompts {ResultData : Type} (self : Agent.t ResultData)
    (message_history : list Message) : list Message :=
  if existsb is_system message_history then []
  else map SystemPrompt (Agent.system_prompts self).

(** ** Scenarios *)

Module Scenario.

Definition T0 : Z := 1700000000.

(** A chunk with one choice and no usage. *)
Definition chunk_of (created : Z) (content : option string)
    (tool_calls : option (list ChoiceDeltaToolCall.t)) : ChatCompletionChunk.t :=
  ChatCompletionChunk.mk created
    [ChunkChoice.mk (ChoiceDelta.mk content tool_calls) None] None.

Definition delta_call (index : Z) (id name arguments : option string)
    : ChoiceDeltaToolCall.t :=
  ChoiceDeltaToolCall.mk index id (Some (ChoiceDeltaToolCallFunction.mk name arguments)).

Definition usage_of_tokens (p c : Z) : CompletionUsage.t :=
  CompletionUsage.mk p c (p + c) None None.

(** A heartbeat: no choices, only usage. *)
Definition heartbeat (created : Z) (p c : Z) : ChatCompletionChunk.t :=
  ChatCompletionChunk.mk created [] (Some (usage_of_tokens p c)).

(** The arguments [{"a": 42}] arriving in two fragments for call 0, whose
    name came with the first chunk; call 1 never gets a name. *)
Definition args_fragment_1 : string := "{" +:+ dquote +:+ "a" +:+ dquote +:+ ": 4".
Definition args_fragment_2 : string := "2}".
Definition args_whole : string := "{" +:+ dquote +:+ "a" +:+ dquote +:+ ": 42}".

Definition fragments_stream : list ChatCompletionChunk.t :=
  [ chunk_of T0 None (Some [delta_call 0 (Some "call_0") (Some "final_result") None]);
    chunk_of T0 None (Some [delta_call 0 None None (Some args_fragment_1)]);
    chunk_of T0 None (Some [delta_call 0 None None (Some args_fragment_2);
                            delta_call 1 (Some "call_1") None (Some "{}")]) ].

(** A heartbeat stamped one second before the first chunk with content. *)
Definition late_content_stream : list ChatCompletionChunk.t :=
  [ heartbeat 100 7 0; chunk_of 200 (Some "Hello") None; chunk_of 200 (Some " world") None ].

(** A chunk whose [tool_calls] is the empty list. *)
Definition empty_tool_calls_chunk : ChatCompletionChunk.t := chunk_of T0 None (Some []).

(** Two declared tools, one function tool and one result tool. *)
Definition ret_a_def : ToolDefinition.t :=
  ToolDefinition.mk "ret_a" "ret_a" "{}" None.
Definition final_result_def : ToolDefinition.t :=
  ToolDefinition.mk "final_result" "The final response which ends this conversation" "{}" None.

(** A non-streamed response whose message has both tool calls and text. *)
Definition both_response : ChatCompletion.t :=
  ChatCompletion.mk T0
    [Choice.mk
       (ChatCompletionMessage.mk (Some "I will call the tool.")
          (Some [ChatCompletionMessageToolCall.mk "call_0"
                   (FunctionCall.mk "final_result" "{}")]))]
    None.

(** An accumulator that holds call 0 with the id [call_0] and is about to
    read a chunk with a delta of index 1 and a delta of index 0 that carries
    another id. *)
Definition two_ids_accumulator : OpenAIStreamStructuredResponse.t :=
  OpenAIStreamStructuredResponse.mk
    [chunk_of T0 None
       (Some [delta_call 1 (Some "call_1") (Some "g") None;
              delta_call 0 (Some "other") None (Some "{}")])]
    [(0, delta_call 0 (Some "call_0") (Some "f") None)]
    T0 Cost.empty.

(** A first chunk that carries the same index twice. *)
Definition repeated_index_chunk : ChatCompletionChunk.t :=
  chunk_of T0 None
    (Some [delta_call 0 (Some "call_0") (Some "f") (Some "{");
           delta_call 0 None None (Some "}")]).

(** A usage whose two details both count [audio_tokens]. *)
Definition audio_usage : CompletionUsage.t :=
  CompletionUsage.mk 10 20 30
    (Some (<["audio_tokens" := 4]> (<["reasoning_tokens" := 9]> ∅)))
    (Some (<["audio_tokens" := 1]> (<["cached_tokens" := 6]> ∅))).

(** A first chunk that brings, for index 0, the name with the fragment
    [{"a": 4] and then the fragment [2}]. *)
Definition repeated_fragments_chunk : ChatCompletionChunk.t :=
  chunk_of T0 None
    (Some [delta_call 0 (Some "call_0") (Some "final_result") (Some args_fragment_1);
           delta_call 0 None None (Some args_fragment_2)]).

(** A stream whose first chunk brings the name and the fragment [{"a": 4]
    and whose second chunk brings the fragment [2}] and a call of index 1
    together with the finish marker. *)
Definition finish_fragment_stream : list ChatCompletionChunk.t :=
  [ chunk_of T0 None
      (Some [delta_call 0 (Some "call_0") (Some "final_result") (Some args_fragment_1)]);
    ChatCompletionChunk.mk T0
      [ChunkChoice.mk
         (ChoiceDelta.mk None
            (Some [delta_call 0 None None (Some args_fragment_2);
                   delta_call 1 (Some "call_1") (Some "g") (Some "{}")]))
         (Some "tool_calls")]
      None ].

(** A text response with two fragments in its buffer and nothing to read. *)
Definition two_fragments_response : OpenAIStreamTextResponse.t :=
  OpenAIStreamTextResponse.mk None [] T0 Cost.empty ["Hello"; " world"].

(** The chunk that carries the finish marker and nothing else. *)
Definition finish_chunk : ChatCompletionChunk.t :=
  ChatCompletionChunk.mk T0 [ChunkChoice.mk (ChoiceDelta.mk None None) (Some "stop")] None.

Definition audio_chunk : ChatCompletionChunk.t :=
  ChatCompletionChunk.mk T0 [] (Some audio_usage).

End Scenario.

(** The agents and models of [tests/test_agent.py]. *)
Module AgentScenario.

Definition NOW : datetime := Scenario.T0.

(** How the scenarios write the list of valid tool names. *)
Definition names_text (names : list string) : string :=
  "Available tools: " +:+ String.concat ", " names.

Inductive TestData : Type :=
| DataText (text : string)
| DataModel (type_name : string) (fields : list (string * JsonValue)).

(** [Agent(model)]: no system prompt, no tool, result type [str], the
    default retries. *)
Definition plain_agent (model : list Message -> ModelAnyResponse * Cost.t)
    : Agent.t TestData :=
  Agent.mk model [] [] (ResultSchema.build [member_str]) inl DataText Agent.DEFAULT_RETRIES.

Definition foobar_call : ToolCall.t := ToolCall.from_json "foobar" "{}" None.

(** The model of [test_unknown_tool]. *)
Definition unknown_tool_model (_ : list Message) : ModelAnyResponse * Cost.t :=
  (ModelStructuredResponse [foobar_call] NOW, Cost.empty).

(** The model of [test_unknown_tool_fix]. *)
Definition unknown_tool_fix_model (m : list Message) : ModelAnyResponse * Cost.t :=
  if Nat.ltb 1 (length m) then (ModelTextResponse "success" NOW, Cost.empty)
  else (ModelStructuredResponse [foobar_call] NOW, Cost.empty).

(** The tool [ret_a] of [test_run_with_history_new]. *)
Definition ret_a : FunctionTool.t :=
  FunctionTool.mk "ret_a"
    (fun args =>
       match args with
       | ArgsDict [(_, JStr x)] => ToolOk (x +:+ "-apple")
       | _ => ModelRetry "x: Input should be a valid string"
       end).

Definition ret_a_call : ToolCall.t := ToolCall.from_dict "ret_a" [("x", JStr "a")].

(** The text [{"ret_a":"a-apple"}]. *)
Definition ret_a_text : string :=
  "{" +:+ dquote +:+ "ret_a" +:+ dquote +:+ ":" +:+ dquote +:+ "a-apple" +:+ dquote +:+ "}".

Definition is_structured_response (m : Message) : bool :=
  match m with
  | ModelResponse (ModelStructuredResponse _ _) => true
  | _ => false
  end.

(** What the [TestModel] of [test_run_with_history_new] answers: it calls
    the tool unless the history already has a structured response, and then
    answers with the text. *)
Definition history_model (m : list Message) : ModelAnyResponse * Cost.t :=
  if existsb is_structured_response m then (ModelTextResponse ret_a_text NOW, Cost.empty)
  else (ModelStructuredResponse [ret_a_call] NOW, Cost.empty).

(** [Agent(m, system_prompt='Foobar')] with the tool [ret_a]. *)
Definition history_agent : Agent.t TestData :=
  Agent.mk history_model ["Foobar"] [ret_a] (ResultSchema.build [member_str]) inl DataText
    Agent.DEFAULT_RETRIES.

(** [result1.new_messages()] of [test_run_with_history_new]. *)
Definition first_run_new_messages : list Message :=
  [ UserPrompt "Hello" NOW;
    ModelResponse (ModelStructuredResponse [ret_a_call] NOW);
    ToolReturn "ret_a" "a-apple" None NOW;
    ModelResponse (ModelTextResponse ret_a_text NOW) ].

(** The members [Foo] and [Bar] of [test_response_multiple_return_tools];
    only [Bar] has a docstring. *)
Definition Foo : MemberType.t TestData :=
  MemberType.mk "Foo" None true "Foo"
    (fun args =>
       match args with
       | ArgsDict [(_, JInt a); (_, JStr b)] => Valid (DataModel "Foo" [("a", JInt a); ("b", JStr b)])
       | _ => Invalid [ErrorDetails.mk "missing" ["a"] "Field required" JNull]
       end).

Definition Bar : MemberType.t TestData :=
  MemberType.mk "Bar" (Some "This is a bar model.") true "Bar"
    (fun args =>
       match args with
       | ArgsDict [(_, JStr b)] => Valid (DataModel "Bar" [("b", JStr b)])
       | _ => Invalid [ErrorDetails.mk "missing" ["b"] "Field required" JNull]
       end).

(** The result type [Response] and the agent of
    [test_run_with_history_new_structured]. *)
Definition Response : MemberType.t TestData :=
  MemberType.mk "Response" None true "Response"
    (fun args =>
       match args with
       | ArgsDict [(_, JInt a)] => Valid (DataModel "Response" [("a", JInt a)])
       | _ => Invalid [ErrorDetails.mk "missing" ["a"] "Field required" JNull]
       end).

Definition final_result_call : ToolCall.t := ToolCall.from_dict "final_result" [("a", JInt 0)].

(** What the [TestModel] of that test answers: the tool first, the final
    result once the history has a structured response. *)
Definition structured_history_model (m : list Message) : ModelAnyResponse * Cost.t :=
  if existsb is_structured_response m
  then (ModelStructuredResponse [final_result_call] NOW, Cost.empty)
  else (ModelStructuredResponse [ret_a_call] NOW, Cost.empty).

Definition structured_history_agent : Agent.t TestData :=
  Agent.mk structured_history_model ["Foobar"] [ret_a]
    (ResultSchema.build [member_type Response]) inl DataText Agent.DEFAULT_RETRIES.

(** [result1.new_messages()] of [test_run_with_history_new_structured]. *)
Definition first_structured_run_new_messages : list Message :=
  [ UserPrompt "Hello" NOW;
    ModelResponse (ModelStructuredResponse [ret_a_call] NOW);
    ToolReturn "ret_a" "a-apple" None NOW;
    ModelResponse (ModelStructuredResponse [final_result_call] NOW);
    ToolReturn "final_result" "Final result processed." None NOW ].

(** The model of [test_empty_tool_calls]. *)
Definition empty_calls_model (_ : list Message) : ModelAnyResponse * Cost.t :=
  (ModelStructuredResponse [] NOW, Cost.empty).

End AgentScenario.

(** ** Readings of the adapter's own behaviour *)

(** [chunk.choices[0].delta.content] and [chunk.choices[0].delta.tool_calls]
    of a chunk, [None] when the chunk has no choice. *)
Definition chunk_content (chunk : ChatCompletionChunk.t) : option string :=
  match ChatCompletionChunk.choices chunk with
  | choice :: _ => ChoiceDelta.content (ChunkChoice.delta choice)
  | [] => None
  end.

Definition chunk_tool_calls (chunk : ChatCompletionChunk.t)
    : option (list ChoiceDeltaToolCall.t) :=
  match ChatCompletionChunk.choices chunk with
  | choice :: _ => ChoiceDelta.tool_calls (ChunkChoice.delta choice)
  | [] => None
  end.

(** A chunk of the structured branch that brings one fragment of the
    arguments of the call [index] and nothing else: no finish reason, no
    content, one delta without a name. *)
Definition argument_chunk (index : Z) (fragment : string) (chunk : ChatCompletionChunk.t)
    : Prop :=
  exists choice choices id,
    ChatCompletionChunk.choices chunk = choice :: choices /\
    ChunkChoice.finish_reason choice = None /\
    ChunkChoice.delta choice
    = ChoiceDelta.mk None
        (Some [ChoiceDeltaToolCall.mk index id
                 (Some (ChoiceDeltaToolCallFunction.mk None (Some fragment)))]).

(** [n] calls of [OpenAIStreamTextResponse.__anext__], however each ends. *)
Fixpoint text_anext_times (n : nat) (t : OpenAIStreamTextResponse.t)
    : OpenAIStreamTextResponse.t :=
  match n with
  | O => t
  | S n' => text_anext_times n' (fst (OpenAIStreamTextResponse.__anext__ t))
  end.

(** Up to [n] calls of [next] on a generator of
    [OpenAIStreamTextResponse.get], stopping at [StopIteration]: the
    fragments yielded, the generator and the object afterwards. With [n]
    above the number of fragments left this is [list(g)]. *)
Fixpoint get_nexts (n : nat) (g : OpenAIStreamTextResponse.get_generator)
    (self : OpenAIStreamTextResponse.t)
    : list string * OpenAIStreamTextResponse.get_generator * OpenAIStreamTextResponse.t :=
  match n with
  | O => ([], g, self)
  | S n' =>
      match OpenAIStreamTextResponse.get_next g self with
      | (Some fragment, g', self') =>
          let '(fragments, g'', self'') := get_nexts n' g' self' in
          (fragment :: fragments, g'', self'')
      | (None, g', self') => ([], g', self')
      end
  end.

(** The text response with its buffer cleared. *)
Definition buffer_cleared (self : OpenAIStreamTextResponse.t) : OpenAIStreamTextResponse.t :=
  OpenAIStreamTextResponse.mk (OpenAIStreamTextResponse._first self)
    (OpenAIStreamTextResponse._response self) (OpenAIStreamTextResponse._timestamp self)
    (OpenAIStreamTextResponse._cost self) [].

(** The in-progress map holds every entry under the entry's own index and no
    index twice. *)
Definition well_keyed (d : PyDict.t ChoiceDeltaToolCall.t) : Prop :=
  NoDup (PyDict.keys d) /\
  Forall (fun kc => ChoiceDeltaToolCall.index (snd kc) = fst kc) d.

(** Every entry of [d] is still in [d'], at the same place, under the same
    index and with the same id. *)
Definition persists (d d' : PyDict.t ChoiceDeltaToolCall.t) : Prop :=
  (exists added, PyDict.keys d' = PyDict.keys d ++ added) /\
  forall k c,
    PyDict.get k d = Some c ->
    exists c',
      PyDict.get k d' = Some c' /\
      ChoiceDeltaToolCall.id c' = ChoiceDeltaToolCall.id c /\
      ChoiceDeltaToolCall.index c' = ChoiceDeltaToolCall.index c.

(** The last delta of a list that has the given index. *)
Definition last_delta (k : Z) (tool_calls : list ChoiceDeltaToolCall.t)
    : option ChoiceDeltaToolCall.t :=
  last (List.filter (fun c => Z.eqb (ChoiceDeltaToolCall.index c) k) tool_calls).

(** The calls [_map_tool_call] accepts: raw JSON arguments and an id. *)
Definition mappable_call (t : ToolCall.t) : bool :=
  match ToolCall.args t, ToolCall.tool_call_id t with
  | ArgsJson _, Some _ => true
  | _, _ => false
  end.

(** The messages [_map_message] accepts: a message addressed to a tool has
    its call id, and every call of a structured response is acceptable. *)
Definition mappable (message : Message) : bool :=
  match message with
  | SystemPrompt _ | UserPrompt _ _ => true
  | ToolReturn _ _ tool_call_id _ => bool_decide (is_Some tool_call_id)
  | RetryPrompt _ None _ _ => true
  | RetryPrompt _ (Some _) tool_call_id _ => bool_decide (is_Some tool_call_id)
  | ModelResponse (ModelTextResponse _ _) => true
  | ModelResponse (ModelStructuredResponse calls _) => forallb mappable_call calls
  end.

(** A call of a non-streamed response, as the adapter sends it back. *)
Definition tool_call_param_of (c : ChatCompletionMessageToolCall.t)
    : ChatCompletionMessageToolCallParam.t :=
  ChatCompletionMessageToolCallParam.mk (ChatCompletionMessageToolCall.id c)
    (FunctionCall.name (ChatCompletionMessageToolCall.function c))
    (FunctionCall.arguments (ChatCompletionMessageToolCall.function c)).

(** The message of the first choice of a non-streamed response, as the
    adapter sends it back once processed. *)
Definition assistant_param_of (message : ChatCompletionMessage.t)
    : ChatCompletionMessageParam :=
  match ChatCompletionMessage.tool_calls message with
  | Some tool_calls =>
      ChatCompletionAssistantMessageParam None (Some (map tool_call_param_of tool_calls))
  | None =>
      ChatCompletionAssistantMessageParam (ChatCompletionMessage.content message) None
  end.

(** * Properties *)

(** ** The insertion-ordered dictionary *)

Section PyDictFacts.
Context {V : Type}.
Implicit Types (d : PyDict.t V) (k : Z) (v : V).

Lemma PyDict_get_set_eq d k v : PyDict.get k (PyDict.set k v d) = Some v.
Proof.
  induction d as [|[k' v'] d IH]; simpl.
  - by rewrite Z.eqb_refl.
  - destruct (Z.eqb k k') eqn:E; simpl; rewrite E; [done | exact IH].
Qed.

Lemma PyDict_get_set_ne d k k' v :
  k <> k' -> PyDict.get k' (PyDict.set k v d) = PyDict.get k' d.
Proof.
  intros Hne. induction d as [|[k0 v0] d IH]; simpl.
  - destruct (Z.eqb k' k) eqn:E; [apply Z.eqb_eq in E; congruence | done].
  - destruct (Z.eqb k k0) eqn:E; simpl.
    + apply Z.eqb_eq in E. subst k0.
      destruct (Z.eqb k' k) eqn:E'; [apply Z.eqb_eq in E'; congruence | done].
    + by rewrite IH.
Qed.

Lemma PyDict_set_unseen d k v :
  PyDict.get k d = None -> PyDict.set k v d = d ++ [(k, v)].
Proof.
  induction d as [|[k' v'] d IH]; simpl; [done |].
  destruct (Z.eqb k k'); [done |]. intros H. by rewrite IH.
Qed.

Lemma PyDict_keys_set_seen d k v :
  is_Some (PyDict.get k d) -> PyDict.keys (PyDict.set k v d) = PyDict.keys d.
Proof.
  unfold PyDict.keys.
  induction d as [|[k' v'] d IH]; simpl; [by intros [? ?] |].
  destruct (Z.eqb k k'); simpl; [done |]. intros H. by rewrite IH.
Qed.

Lemma PyDict_get_values d k v : PyDict.get k d = Some v -> v ∈ PyDict.values d.
Proof.
  unfold PyDict.values.
  induction d as [|[k' v'] d IH]; simpl; [done |].
  destruct (Z.eqb k k').
  - intros [= ->]. apply list_elem_of_here.
  - intros H. apply list_elem_of_further. by apply IH.
Qed.

End PyDictFacts.

(** ** The streamed structured response *)

(** [get] goes through the values once and keeps the completed calls. *)
Lemma get_calls_fold (cs : list ChoiceDeltaToolCall.t) (acc : list ToolCall.t) :
  fold_left
    (fun (calls : list ToolCall.t) (c : ChoiceDeltaToolCall.t) =>
       match ChoiceDeltaToolCall.function c with
       | Some f =>
           match ChoiceDeltaToolCallFunction.name f,
                 ChoiceDeltaToolCallFunction.arguments f with
           | Some name, Some arguments =>
               calls ++ [ToolCall.from_json name arguments (ChoiceDeltaToolCall.id c)]
           | _, _ => calls
           end
       | None => calls
       end) cs acc
  = acc ++ omap completed_call cs.
Proof.
  revert acc. induction cs as [|c cs IH]; intros acc; simpl.
  - by rewrite app_nil_r.
  - rewrite IH. unfold completed_call at 2.
    destruct (ChoiceDeltaToolCall.function c) as [[[n|] [a|]]|]; simpl;
      try done.
    by rewrite <- app_assoc.
Qed.

Lemma get_spec (self : OpenAIStreamStructuredResponse.t) :
  OpenAIStreamStructuredResponse.get self
  = ModelStructuredResponse
      (omap completed_call
         (PyDict.values (OpenAIStreamStructuredResponse._delta_tool_calls self)))
      (OpenAIStreamStructuredResponse._timestamp self).
Proof. unfold OpenAIStreamStructuredResponse.get. by rewrite get_calls_fold. Qed.

Lemma add_optional_appended (existing incoming : option string) :
  appended existing incoming (add_optional existing incoming).
Proof. by destruct existing, incoming. Qed.

(** C1 as the code has it. For every tool-call delta that [__anext__] reads,
    the accumulator leaves the other indexes alone; inserts the delta, last,
    when its index is unseen; and when the index is seen keeps the entry's
    place and id and appends each present incoming name or argument fragment
    to the existing one (an absent existing one is taken over, never is a
    present one replaced). [__anext__] reads the deltas of a chunk, in their
    order, when the chunk has a first choice without finish reason and
    without content. Fed the
    chunks of [Scenario.fragments_stream], whose call 0 has its name from the
    first chunk and its arguments in the two fragments [{"a": 4] and [2}],
    the accumulator materializes exactly the arguments [{"a": 42}]. *)
Theorem merge_tool_call_accumulates
    (d : PyDict.t ChoiceDeltaToolCall.t) (new : ChoiceDeltaToolCall.t) :
  let index := ChoiceDeltaToolCall.index new in
  let d' := OpenAIStreamStructuredResponse.merge_tool_call d new in
  (forall k, k <> index -> PyDict.get k d' = PyDict.get k d) /\
  (PyDict.get index d = None -> d' = d ++ [(index, new)]) /\
  (forall current,
     PyDict.get index d = Some current ->
     PyDict.keys d' = PyDict.keys d /\
     exists function,
       PyDict.get index d'
       = Some (ChoiceDeltaToolCall.mk (ChoiceDeltaToolCall.index current)
                 (ChoiceDeltaToolCall.id current) function) /\
       (ChoiceDeltaToolCall.function current = None ->
        function = ChoiceDeltaToolCall.function new) /\
       (ChoiceDeltaToolCall.function new = None ->
        function = ChoiceDeltaToolCall.function current) /\
       (forall cf nf,
          ChoiceDeltaToolCall.function current = Some cf ->
          ChoiceDeltaToolCall.function new = Some nf ->
          exists name arguments,
            function = Some (ChoiceDeltaToolCallFunction.mk name arguments) /\
            appended (ChoiceDeltaToolCallFunction.name cf)
                     (ChoiceDeltaToolCallFunction.name nf) name /\
            appended (ChoiceDeltaToolCallFunction.arguments cf)
                     (ChoiceDeltaToolCallFunction.arguments nf) arguments)) /\
  (forall self chunk rest choice choices,
     OpenAIStreamStructuredResponse._response self = chunk :: rest ->
     ChatCompletionChunk.choices chunk = choice :: choices ->
     ChunkChoice.finish_reason choice = None ->
     ChoiceDelta.content (ChunkChoice.delta choice) = None ->
     OpenAIStreamStructuredResponse.__anext__ self
     = (OpenAIStreamStructuredResponse.mk rest
          (fold_left OpenAIStreamStructuredResponse.merge_tool_call
             (default [] (ChoiceDelta.tool_calls (ChunkChoice.delta choice)))
             (OpenAIStreamStructuredResponse._delta_tool_calls self))
          (OpenAIStreamStructuredResponse._timestamp self)
          (Cost.add (OpenAIStreamStructuredResponse._cost self) (_map_cost chunk)),
        Ok tt)) /\
  (exists s0,
     _process_streamed_response Scenario.fragments_stream = Ok (StreamStructured s0) /\
     OpenAIStreamStructuredResponse.get (structured_anext_times 2 s0)
     = ModelStructuredResponse
         [ToolCall.mk "final_result" (ArgsJson Scenario.args_whole) (Some "call_0")]
         Scenario.T0).
Proof.
  intros index d'. subst d'. unfold OpenAIStreamStructuredResponse.merge_tool_call.
  fold index. split; [| split; [| split; [| split]]].
  - intros k Hk.
    destruct (PyDict.get index d) as [current|] eqn:Hget.
    + destruct (ChoiceDeltaToolCall.function current) as [cf|].
      * destruct (ChoiceDeltaToolCall.function new) as [nf|]; [| done].
        by apply PyDict_get_set_ne.
      * by apply PyDict_get_set_ne.
    + by apply PyDict_get_set_ne.
  - intros Hget. rewrite Hget. by apply PyDict_set_unseen.
  - intros current Hget. rewrite Hget.
    assert (is_Some (PyDict.get index d)) as Hseen by (by rewrite Hget).
    destruct (ChoiceDeltaToolCall.function current) as [cf|] eqn:Hcf.
    + destruct (ChoiceDeltaToolCall.function new) as [nf|] eqn:Hnf.
      * split; [by apply PyDict_keys_set_seen |].
        eexists. split; [apply PyDict_get_set_eq |].
        split; [done |]. split; [done |].
        intros cf' nf' [= <-] [= <-]. eexists _, _. split; [done |].
        split; apply add_optional_appended.
      * split; [done |].
        exists (Some cf). split.
        { rewrite Hget. destruct current; simpl in *. by rewrite Hcf. }
        split; [done |]. split; [done |]. by intros cf' nf' _ [=].
    + split; [by apply PyDict_keys_set_seen |].
      eexists. split; [apply PyDict_get_set_eq |].
      split; [done |]. split; [by intros -> |]. by intros cf' nf' [=].
  - intros self chunk rest choice choices Hresponse Hchoices Hfinish Hcontent.
    unfold OpenAIStreamStructuredResponse.__anext__.
    by rewrite Hresponse, Hchoices, Hfinish, Hcontent.
  - eexists. split; [reflexivity |]. vm_compute. reflexivity.
Qed.

(** C1, at a concrete delta: the entry of index 0 holds the name
    [final_result] and the arguments [{"a": 4]; merging the fragment [2}]
    gives the arguments [{"a": 42}] and keeps the name. *)
Lemma merge_tool_call_accumulates_witness :
  PyDict.get 0
    (OpenAIStreamStructuredResponse.merge_tool_call
       [(0, Scenario.delta_call 0 (Some "call_0") (Some "final_result")
              (Some Scenario.args_fragment_1))]
       (Scenario.delta_call 0 None None (Some Scenario.args_fragment_2)))
  = Some (Scenario.delta_call 0 (Some "call_0") (Some "final_result")
            (Some (Scenario.args_fragment_1 +:+ Scenario.args_fragment_2))).
Proof.
  destruct (merge_tool_call_accumulates
              [(0, Scenario.delta_call 0 (Some "call_0") (Some "final_result")
                     (Some Scenario.args_fragment_1))]
              (Scenario.delta_call 0 None None (Some Scenario.args_fragment_2)))
    as (_ & _ & Hseen & _ & _).
  destruct (Hseen _ eq_refl) as (_ & function & Hget & _ & _ & Hboth).
  destruct (Hboth _ _ eq_refl eq_refl) as (name & arguments & -> & Hname & Hargs).
  simpl in Hname, Hargs. subst name arguments. exact Hget.
Defined.

(** C1 as stated fails for the deltas [__anext__] does not read. In the chunk
    that starts the response a repeated index is replaced: the name with the
    fragment [{"a": 4] followed by the fragment [2}] leaves the second delta
    alone in the map, and [get] returns no call. And the deltas of a chunk
    that has a finish reason are dropped: after the name and [{"a": 4], the
    fragment [2}] and a call of the unseen index 1 that come with the finish
    marker leave the arguments at [{"a": 4] and the index 1 out of the map. *)
Lemma incoming_delta_replaced_or_dropped :
  (exists s,
     _process_streamed_response [Scenario.repeated_fragments_chunk]
     = Ok (StreamStructured s) /\
     OpenAIStreamStructuredResponse._delta_tool_calls s
     = [(0, Scenario.delta_call 0 None None (Some Scenario.args_fragment_2))] /\
     OpenAIStreamStructuredResponse.get s = ModelStructuredResponse [] Scenario.T0) /\
  (exists s,
     _process_streamed_response Scenario.finish_fragment_stream = Ok (StreamStructured s) /\
     snd (OpenAIStreamStructuredResponse.__anext__ s) = Raise StopAsyncIteration /\
     OpenAIStreamStructuredResponse._response
       (fst (OpenAIStreamStructuredResponse.__anext__ s)) = [] /\
     PyDict.get 1
       (OpenAIStreamStructuredResponse._delta_tool_calls
          (fst (OpenAIStreamStructuredResponse.__anext__ s))) = None /\
     OpenAIStreamStructuredResponse.get (fst (OpenAIStreamStructuredResponse.__anext__ s))
     = ModelStructuredResponse
         [ToolCall.mk "final_result" (ArgsJson Scenario.args_fragment_1) (Some "call_0")]
         Scenario.T0 /\
     Scenario.args_fragment_1 <> Scenario.args_whole).
Proof.
  split.
  - eexists. split; [reflexivity |]. split; reflexivity.
  - eexists. split; [reflexivity |]. repeat (split; [reflexivity |]). discriminate.
Qed.

(** C2. [get] returns, with the response's timestamp, exactly one [ToolCall]
    for each entry of the in-progress map whose name and arguments are both
    present, in the map's order: every such index contributes its call, every
    call returned comes from such an entry, and the entries still missing a
    name or the arguments contribute nothing. *)
Theorem get_emits_completed_calls (self : OpenAIStreamStructuredResponse.t) :
  let d := OpenAIStreamStructuredResponse._delta_tool_calls self in
  exists calls,
    OpenAIStreamStructuredResponse.get self
    = ModelStructuredResponse calls (OpenAIStreamStructuredResponse._timestamp self) /\
    calls = omap completed_call (PyDict.values d) /\
    (forall k c name arguments,
       PyDict.get k d = Some c ->
       ChoiceDeltaToolCall.function c
       = Some (ChoiceDeltaToolCallFunction.mk (Some name) (Some arguments)) ->
       ToolCall.mk name (ArgsJson arguments) (ChoiceDeltaToolCall.id c) ∈ calls) /\
    (forall call,
       call ∈ calls ->
       exists k c name arguments,
         (k, c) ∈ d /\
         ChoiceDeltaToolCall.function c
         = Some (ChoiceDeltaToolCallFunction.mk (Some name) (Some arguments)) /\
         call = ToolCall.mk name (ArgsJson arguments) (ChoiceDeltaToolCall.id c)) /\
    length calls
    = length (filter (fun c => is_Some (completed_call c)) (PyDict.values d)) /\
    ((forall c, c ∈ PyDict.values d -> completed_call c = None) -> calls = []).
Proof.
  intros d. eexists. split; [apply get_spec |]. fold d. split; [done |].
  split; [| split; [| split]].
  - intros k c name arguments Hget Hf.
    apply list_elem_of_omap. exists c. split.
    + by apply (PyDict_get_values d k).
    + unfold completed_call. by rewrite Hf.
  - intros call (c & Hc & Hcall)%list_elem_of_omap.
    unfold PyDict.values in Hc. apply list_elem_of_fmap in Hc as ([k c'] & -> & Hin).
    simpl in Hcall. unfold completed_call in Hcall.
    destruct (ChoiceDeltaToolCall.function c') as [[[n|] [a|]]|] eqn:Hf;
      simpl in Hcall; try discriminate.
    injection Hcall as <-. by exists k, c', n, a.
  - induction (PyDict.values d) as [|c cs IH]; simpl; [done |].
    rewrite filter_cons. destruct (completed_call c) as [call|] eqn:Hc; simpl.
    + f_equal. exact IH.
    + exact IH.
  - intros Hall. induction (PyDict.values d) as [|c cs IH]; simpl; [done |].
    rewrite (Hall c); [| apply list_elem_of_here].
    apply IH. intros c' Hc'. apply Hall. by apply list_elem_of_further.
Qed.

(** C2, at a concrete map: index 0 is complete, index 1 has arguments but no
    name, index 2 has a name but no arguments; only index 0 is returned. *)
Lemma get_emits_completed_calls_witness :
  OpenAIStreamStructuredResponse.get
    (OpenAIStreamStructuredResponse.mk []
       [(0, Scenario.delta_call 0 (Some "call_0") (Some "final_result") (Some "{}"));
        (1, Scenario.delta_call 1 (Some "call_1") None (Some "{}"));
        (2, Scenario.delta_call 2 (Some "call_2") (Some "final_result") None)]
       Scenario.T0 Cost.empty)
  = ModelStructuredResponse [ToolCall.mk "final_result" (ArgsJson "{}") (Some "call_0")]
      Scenario.T0.
Proof.
  destruct (get_emits_completed_calls
              (OpenAIStreamStructuredResponse.mk []
                 [(0, Scenario.delta_call 0 (Some "call_0") (Some "final_result") (Some "{}"));
                  (1, Scenario.delta_call 1 (Some "call_1") None (Some "{}"));
                  (2, Scenario.delta_call 2 (Some "call_2") (Some "final_result") None)]
                 Scenario.T0 Cost.empty))
    as (calls & Hget & Hcalls & _).
  rewrite Hget, Hcalls. reflexivity.
Defined.

(** ** The streaming bootstrap *)

Lemma skip_timestamp_Some (t : datetime) (skipped : list ChatCompletionChunk.t) :
  skip_timestamp (Some t) skipped = Some t.
Proof. by destruct skipped. Qed.

Lemma bootstrap_loop_skip (skipped rest : list ChatCompletionChunk.t) :
  Forall (fun chunk => has_content_or_tool_calls chunk = false) skipped ->
  forall timestamp start_cost,
    _process_streamed_response_loop (skipped ++ rest) timestamp start_cost
    = _process_streamed_response_loop rest (skip_timestamp timestamp skipped)
        (fold_left Cost.add (map (fun chunk => _map_cost chunk) skipped) start_cost).
Proof.
  induction 1 as [|chunk skipped Hchunk _ IH]; intros timestamp start_cost; [done |].
  simpl. unfold has_content_or_tool_calls in Hchunk.
  destruct (ChatCompletionChunk.choices chunk) as [|choice choices].
  - rewrite IH. by rewrite skip_timestamp_Some.
  - destruct (ChoiceDelta.content (ChunkChoice.delta choice)); [done |].
    destruct (ChoiceDelta.tool_calls (ChunkChoice.delta choice)); [done |].
    rewrite IH. by rewrite skip_timestamp_Some.
Qed.

Lemma bootstrap_loop_stop (chunk : ChatCompletionChunk.t) (rest : list ChatCompletionChunk.t)
    (timestamp : option datetime) (start_cost : Cost.t) :
  has_content_or_tool_calls chunk = true ->
  exists r,
    _process_streamed_response_loop (chunk :: rest) timestamp start_cost = Ok r /\
    either_cost r = Cost.add start_cost (_map_cost chunk) /\
    either_response r = rest.
Proof.
  unfold has_content_or_tool_calls. simpl.
  destruct (ChatCompletionChunk.choices chunk) as [|choice choices]; [done |].
  destruct (ChoiceDelta.content (ChunkChoice.delta choice)); [by eexists |].
  destruct (ChoiceDelta.tool_calls (ChunkChoice.delta choice)); [by eexists | done].
Qed.

Lemma bootstrap_loop_timestamp (stream : list ChatCompletionChunk.t) :
  forall timestamp start_cost r,
    _process_streamed_response_loop stream timestamp start_cost = Ok r ->
    exists chunk rest,
      stream = chunk :: rest /\
      either_timestamp r
      = py_or timestamp (fromtimestamp (ChatCompletionChunk.created chunk)).
Proof.
  induction stream as [|chunk rest IH]; intros timestamp start_cost r; [done |].
  simpl. intros Hr. exists chunk, rest. split; [done |].
  destruct (ChatCompletionChunk.choices chunk) as [|choice choices].
  - apply IH in Hr as (? & ? & _ & ->). done.
  - destruct (ChoiceDelta.content (ChunkChoice.delta choice)).
    { by injection Hr as <-. }
    destruct (ChoiceDelta.tool_calls (ChunkChoice.delta choice)).
    { by injection Hr as <-. }
    apply IH in Hr as (? & ? & _ & ->). done.
Qed.

Lemma either_anext_timestamp (r : EitherStreamedResponse) :
  either_timestamp (fst (either_anext r)) = either_timestamp r.
Proof.
  destruct r as [t|s]; simpl.
  - unfold OpenAIStreamTextResponse.__anext__.
    destruct (OpenAIStreamTextResponse._first t); [done |].
    destruct (OpenAIStreamTextResponse._response t) as [|chunk rest]; [done |].
    destruct (ChatCompletionChunk.choices chunk) as [|choice choices]; [done |].
    by destruct (ChunkChoice.finish_reason choice),
                (ChoiceDelta.content (ChunkChoice.delta choice)).
  - unfold OpenAIStreamStructuredResponse.__anext__.
    destruct (OpenAIStreamStructuredResponse._response s) as [|chunk rest]; [done |].
    destruct (ChatCompletionChunk.choices chunk) as [|choice choices]; [done |].
    destruct (ChunkChoice.finish_reason choice); [done |].
    by destruct (ChoiceDelta.content (ChunkChoice.delta choice)).
Qed.

Lemma anext_times_timestamp (n : nat) (r : EitherStreamedResponse) :
  either_timestamp (anext_times n r) = either_timestamp r.
Proof.
  revert r. induction n as [|n IH]; intros r; simpl; [done |].
  by rewrite IH, either_anext_timestamp.
Qed.

(** C5 as the code has it. Chunks that have no choice, or whose delta has
    neither a [content] nor a [tool_calls] (both [None]), are skipped, and a
    stream made only of such chunks ends the bootstrap with
    [UnexpectedModelBehavior]; when a chunk with a [content] or a
    [tool_calls] follows them the bootstrap returns a response that holds the
    rest of the stream and whose cost is the sum of the usage of every chunk
    consumed, the skipped ones included. *)
Theorem bootstrap_skips_and_accumulates (skipped : list ChatCompletionChunk.t) :
  Forall (fun chunk => has_content_or_tool_calls chunk = false) skipped ->
  _process_streamed_response skipped = Raise BOOTSTRAP_ERROR /\
  forall chunk rest,
    has_content_or_tool_calls chunk = true ->
    exists r,
      _process_streamed_response (skipped ++ chunk :: rest) = Ok r /\
      either_cost r = Cost.sum (map (fun c => _map_cost c) (skipped ++ [chunk])) /\
      either_response r = rest.
Proof.
  intros Hskipped. unfold _process_streamed_response. split.
  - rewrite <- (app_nil_r skipped) at 1. by rewrite bootstrap_loop_skip.
  - intros chunk rest Hchunk. rewrite bootstrap_loop_skip by done.
    destruct (bootstrap_loop_stop chunk rest (skip_timestamp None skipped)
                (fold_left Cost.add (map (fun c => _map_cost c) skipped) Cost.empty) Hchunk)
      as (r & Hr & Hcost & Hrest).
    exists r. split; [done |]. split; [| done].
    rewrite Hcost. unfold Cost.sum. by rewrite map_app, fold_left_app.
Qed.

(** C5 as the code has it, at a concrete stream: a heartbeat reporting seven
    prompt tokens is skipped, and the text response started by the next chunk
    has them in its cost. *)
Lemma bootstrap_skips_and_accumulates_witness :
  exists r,
    _process_streamed_response Scenario.late_content_stream = Ok r /\
    Cost.request_tokens (either_cost r) = 7 /\
    either_response r = [Scenario.chunk_of 200 (Some " world") None].
Proof.
  destruct (bootstrap_skips_and_accumulates [Scenario.heartbeat 100 7 0]) as [_ H].
  { by repeat constructor. }
  destruct (H (Scenario.chunk_of 200 (Some "Hello") None)
              [Scenario.chunk_of 200 (Some " world") None] eq_refl)
    as (r & Hr & Hcost & Hrest).
  exists r. split; [exact Hr |]. split; [| exact Hrest].
  rewrite Hcost. reflexivity.
Defined.

(** C5 as stated fails on a chunk whose [tool_calls] is the empty list: it
    carries neither textual content nor a tool-call delta, yet the bootstrap
    does not skip it: the stream ending there, it returns a structured
    response instead of failing, and followed by a chunk with text it returns
    a structured response that still has that chunk to read. *)
Lemma bootstrap_empty_tool_calls_not_skipped :
  carries_content_or_tool_call_delta Scenario.empty_tool_calls_chunk = false /\
  _process_streamed_response [Scenario.empty_tool_calls_chunk]
  = Ok (StreamStructured
          (OpenAIStreamStructuredResponse.mk [] PyDict.empty Scenario.T0
             (Cost.add Cost.empty Cost.empty))) /\
  _process_streamed_response
    [Scenario.empty_tool_calls_chunk; Scenario.chunk_of Scenario.T0 (Some "Hello") None]
  = Ok (StreamStructured
          (OpenAIStreamStructuredResponse.mk
             [Scenario.chunk_of Scenario.T0 (Some "Hello") None] PyDict.empty Scenario.T0
             (Cost.add Cost.empty Cost.empty))) /\
  ~ (forall stream,
       Forall (fun chunk => carries_content_or_tool_call_delta chunk = false) stream ->
       exists e, _process_streamed_response stream = Raise e).
Proof.
  split; [reflexivity |]. split; [reflexivity |]. split; [reflexivity |].
  intros H. destruct (H [Scenario.empty_tool_calls_chunk]) as [e He].
  - by repeat constructor.
  - discriminate He.
Qed.

(** C6 as the code has it. The response timestamp is the [created] of the
    first chunk the bootstrap consumed, whether or not that chunk carried
    anything; no later [__anext__] changes it, and it is the timestamp of the
    response [get] materializes. *)
Theorem streamed_timestamp_is_first_chunk
    (stream : list ChatCompletionChunk.t) (r : EitherStreamedResponse) :
  _process_streamed_response stream = Ok r ->
  exists chunk rest,
    stream = chunk :: rest /\
    forall n,
      either_timestamp (anext_times n r)
      = fromtimestamp (ChatCompletionChunk.created chunk) /\
      forall s,
        anext_times n r = StreamStructured s ->
        exists calls,
          OpenAIStreamStructuredResponse.get s
          = ModelStructuredResponse calls
              (fromtimestamp (ChatCompletionChunk.created chunk)).
Proof.
  intros Hr. apply bootstrap_loop_timestamp in Hr as (chunk & rest & -> & Ht).
  exists chunk, rest. split; [done |]. intros n.
  assert (either_timestamp (anext_times n r)
          = fromtimestamp (ChatCompletionChunk.created chunk)) as Hfixed.
  { by rewrite anext_times_timestamp, Ht. }
  split; [exact Hfixed |].
  intros s Hs. rewrite Hs in Hfixed. simpl in Hfixed.
  eexists. rewrite get_spec. by rewrite <- Hfixed.
Qed.

(** C6 as the code has it, at a concrete stream: the response started by the
    chunk stamped 200 carries the heartbeat's 100, before and after the next
    two [__anext__]. *)
Lemma streamed_timestamp_is_first_chunk_witness :
  exists r,
    _process_streamed_response Scenario.late_content_stream = Ok r /\
    either_timestamp r = 100 /\ either_timestamp (anext_times 2 r) = 100.
Proof.
  eexists. split; [reflexivity |].
  destruct (streamed_timestamp_is_first_chunk Scenario.late_content_stream _ eq_refl)
    as (chunk & rest & Hstream & Ht).
  injection Hstream as <- <-.
  split; [exact (proj1 (Ht 0%nat)) | exact (proj1 (Ht 2%nat))].
Defined.

(** C6 as stated fails when a heartbeat comes first: the first informative
    chunk of [Scenario.late_content_stream] is stamped 200, the response
    100. *)
Lemma streamed_timestamp_not_first_informative :
  exists chunk r,
    first_informative_chunk Scenario.late_content_stream = Some chunk /\
    _process_streamed_response Scenario.late_content_stream = Ok r /\
    fromtimestamp (ChatCompletionChunk.created chunk) = 200 /\
    either_timestamp r = 100.
Proof. eexists _, _. repeat split; reflexivity. Qed.

(** ** Requests and non-streamed responses *)

Lemma agent_model_tools (flag : bool) (model_name : string)
    (function_tools result_tools : list ToolDefinition.t) (allow_text_result : bool)
    (self : OpenAIAgentModel.t) :
  agent_model flag model_name function_tools allow_text_result result_tools = Ok self ->
  OpenAIAgentModel.tools self
  = map OpenAIModel._map_tool_definition (function_tools ++ result_tools) /\
  OpenAIAgentModel.allow_text_result self = allow_text_result.
Proof.
  unfold agent_model. destruct flag; simpl; [| done].
  intros [= <-]. simpl. split; [| done].
  destruct result_tools; [by rewrite app_nil_r | by rewrite map_app].
Qed.

(** C9. A request built for an agent model carries no [tool_choice] when no
    function tool and no result tool is declared; with tools declared it
    carries ['required'] when plain-text results are not allowed and ['auto']
    when they are. *)
Theorem completions_create_tool_choice
    (model_response_str : string -> string) (model_response : RetryContent -> string)
    (flag : bool) (model_name : string)
    (function_tools result_tools : list ToolDefinition.t) (allow_text_result : bool)
    (self : OpenAIAgentModel.t) (messages : list Message) (stream : bool)
    (params : CompletionCreateParams.t) :
  agent_model flag model_name function_tools allow_text_result result_tools = Ok self ->
  _completions_create model_response_str model_response self messages stream = Ok params ->
  CompletionCreateParams.tool_choice params
  = match function_tools ++ result_tools with
    | [] => None
    | _ :: _ => if allow_text_result then Some tool_choice_auto else Some tool_choice_required
    end.
Proof.
  intros [Htools Hallow]%agent_model_tools. unfold _completions_create.
  destruct (result_map _ messages) as [openai_messages|e]; simpl; [| done].
  intros [= <-]. simpl. unfold tool_choice_of. rewrite Htools, Hallow.
  destruct (function_tools ++ result_tools); simpl; [done |].
  by destruct allow_text_result.
Qed.

(** C9 at three concrete agents: no tools; a function tool and a result tool
    without text results; the same with text results. *)
Lemma completions_create_tool_choice_witness :
  (exists self params,
     agent_model true "gpt-4o" [] true [] = Ok self /\
     _completions_create id (fun _ => "retry") self [UserPrompt "Hello" Scenario.T0] false
     = Ok params /\
     CompletionCreateParams.tool_choice params = None) /\
  (exists self params,
     agent_model true "gpt-4o" [Scenario.ret_a_def] false [Scenario.final_result_def]
     = Ok self /\
     _completions_create id (fun _ => "retry") self [UserPrompt "Hello" Scenario.T0] false
     = Ok params /\
     CompletionCreateParams.tool_choice params = Some tool_choice_required) /\
  (exists self params,
     agent_model true "gpt-4o" [Scenario.ret_a_def] true [Scenario.final_result_def]
     = Ok self /\
     _completions_create id (fun _ => "retry") self [UserPrompt "Hello" Scenario.T0] true
     = Ok params /\
     CompletionCreateParams.tool_choice params = Some tool_choice_auto).
Proof.
  repeat split; eexists _, _;
    (split; [reflexivity |]); (split; [reflexivity |]).
  - exact (completions_create_tool_choice id (fun _ => "retry") true "gpt-4o"
             [] [] true _ [UserPrompt "Hello" Scenario.T0] false _ eq_refl eq_refl).
  - exact (completions_create_tool_choice id (fun _ => "retry") true "gpt-4o"
             [Scenario.ret_a_def] [Scenario.final_result_def] false _
             [UserPrompt "Hello" Scenario.T0] false _ eq_refl eq_refl).
  - exact (completions_create_tool_choice id (fun _ => "retry") true "gpt-4o"
             [Scenario.ret_a_def] [Scenario.final_result_def] true _
             [UserPrompt "Hello" Scenario.T0] true _ eq_refl eq_refl).
Defined.

(** C10. For a response with at least one choice: a [tool_calls] that is not
    [None] gives a [ModelStructuredResponse] of those calls whatever the
    message's [content] is; a [ModelTextResponse] is returned only when
    [tool_calls] is [None], and then it holds the [content]; with neither,
    the assertion fails and no value is produced. *)
Theorem process_response_prefers_tool_calls
    (response : ChatCompletion.t) (choice : Choice.t) (rest : list Choice.t) :
  ChatCompletion.choices response = choice :: rest ->
  let message := Choice.message choice in
  let timestamp := fromtimestamp (ChatCompletion.created response) in
  (forall tool_calls,
     ChatCompletionMessage.tool_calls message = Some tool_calls ->
     _process_response response
     = Ok (ModelStructuredResponse (map tool_call_of tool_calls) timestamp)) /\
  (forall content,
     ChatCompletionMessage.tool_calls message = None ->
     ChatCompletionMessage.content message = Some content ->
     _process_response response = Ok (ModelTextResponse content timestamp)) /\
  (ChatCompletionMessage.tool_calls message = None ->
   ChatCompletionMessage.content message = None ->
   _process_response response = Raise AssertionError) /\
  (forall content timestamp',
     _process_response response = Ok (ModelTextResponse content timestamp') ->
     ChatCompletionMessage.tool_calls message = None /\
     ChatCompletionMessage.content message = Some content).
Proof.
  intros Hchoices message timestamp. unfold _process_response. rewrite Hchoices.
  fold message. fold timestamp. split; [| split; [| split]].
  - by intros tool_calls ->.
  - by intros content -> ->.
  - by intros -> ->.
  - intros content timestamp'.
    destruct (ChatCompletionMessage.tool_calls message); [done |].
    destruct (ChatCompletionMessage.content message); [| done].
    by intros [= -> _].
Qed.

(** C10 at a message that has both tool calls and text: the text is
    dropped. *)
Lemma process_response_prefers_tool_calls_witness :
  _process_response Scenario.both_response
  = Ok (ModelStructuredResponse
          [ToolCall.mk "final_result" (ArgsJson "{}") (Some "call_0")] Scenario.T0).
Proof.
  destruct (process_response_prefers_tool_calls Scenario.both_response _ _ eq_refl)
    as (Hcalls & _).
  exact (Hcalls _ eq_refl).
Defined.


(** ** The run loop *)

Section RunFacts.
Context {ResultData : Type}.
Variable now : datetime.
Variable tool_names_text : list string -> string.
Implicit Types (self : Agent.t ResultData) (call : ToolCall.t).

Lemma find_function_tool_None (tools : list FunctionTool.t) (name : string) :
  name ∉ map FunctionTool.name tools -> Agent.find_function_tool tools name = None.
Proof.
  induction tools as [|tool tools IH]; simpl; [done |].
  intros Hnot. apply not_elem_of_cons in Hnot as [Hne Hnot].
  destruct (String.eqb (FunctionTool.name tool) name) eqn:E.
  - apply String.eqb_eq in E. congruence.
  - by apply IH.
Qed.

Lemma find_tool_in_None (tools : list (string * ResultTool.t ResultData)) (name : string) :
  name ∉ map fst tools -> ResultSchema.find_tool_in tools name = None.
Proof.
  induction tools as [|[n tool] tools IH]; simpl; [done |].
  intros Hnot. apply not_elem_of_cons in Hnot as [Hne Hnot].
  destruct (String.eqb n name) eqn:E.
  - apply String.eqb_eq in E. congruence.
  - by apply IH.
Qed.

Lemma process_call_unknown self retries call :
  matches_no_tool self call ->
  Agent.process_call now tool_names_text self retries call
  = Agent.retry_with self retries (unknown_tool_prompt now tool_names_text self call).
Proof.
  unfold matches_no_tool, Agent.tool_names. intros Hnot.
  apply not_elem_of_app in Hnot as [Hf Hr].
  unfold Agent.process_call, ResultSchema.dispatch, ResultSchema.find_tool.
  rewrite (find_function_tool_None _ _ Hf).
  by rewrite (find_tool_in_None _ _ Hr).
Qed.

Lemma retry_with_below self retries prompt :
  (retries < Agent.max_result_retries self)%nat ->
  Agent.retry_with self retries prompt = Agent.Continue [prompt] (S retries).
Proof.
  intros Hlt. unfold Agent.retry_with, Agent._incr_result_retry.
  destruct (Nat.ltb_spec (Agent.max_result_retries self) (S retries)); [lia | done].
Qed.

Lemma retry_with_exceeded self retries prompt :
  (Agent.max_result_retries self <= retries)%nat ->
  Agent.retry_with self retries prompt
  = Agent.Abort (retries_exceeded (decimal (Agent.max_result_retries self))).
Proof.
  intros Hle. unfold Agent.retry_with, Agent._incr_result_retry.
  destruct (Nat.ltb_spec (Agent.max_result_retries self) (S retries)); [done | lia].
Qed.

(** A run that ends in [Done] kept the index it started with and only
    appended to the messages it started with. *)
Lemma run_loop_done (fuel : nat) self :
  forall new_message_index messages retries cost r,
    Agent.run_loop now tool_names_text fuel self new_message_index messages retries cost
    = Agent.Done r ->
    Agent._new_message_index r = new_message_index /\
    exists produced, Agent._all_messages r = messages ++ produced.
Proof.
  induction fuel as [|fuel IH]; intros idx messages retries cost r; simpl; [done |].
  destruct (Agent.model self messages) as [model_response request_cost].
  destruct (Agent._handle_model_response now tool_names_text self retries model_response)
    as [new retries'|final new|e]; [| | done].
  - intros (-> & produced & ->)%IH. split; [done |].
    exists ([ModelResponse model_response] ++ new ++ produced).
    by rewrite <- !app_assoc.
  - intros [= <-]. simpl. split; [done |].
    exists ([ModelResponse model_response] ++ new). by rewrite <- !app_assoc.
Qed.

Lemma prepare_messages_spec self (user_prompt : string) (message_history : list Message) :
  Agent._prepare_messages now self user_prompt message_history
  = (length (inserted_system_prompts self message_history ++ message_history),
     inserted_system_prompts self message_history ++ message_history
     ++ [UserPrompt user_prompt now]).
Proof.
  unfold Agent._prepare_messages, inserted_system_prompts.
  destruct (existsb is_system message_history); simpl; [done |].
  by rewrite <- app_assoc.
Qed.

End RunFacts.

(** The model of the run loop gives the histories of the tests' snapshots. *)

Lemma test_run_with_history_new_first_run :
  exists r,
    Agent.run AgentScenario.NOW AgentScenario.names_text 2 AgentScenario.history_agent
      "Hello" [] = Agent.Done r /\
    Agent.all_messages r = SystemPrompt "Foobar" :: AgentScenario.first_run_new_messages /\
    Agent.new_messages r = AgentScenario.first_run_new_messages.
Proof. eexists. split; [reflexivity |]. by split. Qed.

Lemma test_run_with_history_new_all_messages :
  exists r,
    Agent.run AgentScenario.NOW AgentScenario.names_text 1 AgentScenario.history_agent
      "Hello again" (SystemPrompt "Foobar" :: AgentScenario.first_run_new_messages)
    = Agent.Done r /\
    Agent._new_message_index r = 5%nat /\
    Agent.all_messages r
    = SystemPrompt "Foobar" :: AgentScenario.first_run_new_messages
      ++ [UserPrompt "Hello again" AgentScenario.NOW;
          ModelResponse (ModelTextResponse AgentScenario.ret_a_text AgentScenario.NOW)].
Proof. eexists. split; [reflexivity |]. by split. Qed.

Lemma test_run_with_history_new_structured_runs :
  (exists r,
     Agent.run AgentScenario.NOW AgentScenario.names_text 2
       AgentScenario.structured_history_agent "Hello" [] = Agent.Done r /\
     Agent.new_messages r = AgentScenario.first_structured_run_new_messages /\
     Agent.data r = AgentScenario.DataModel "Response" [("a", JInt 0)]) /\
  (exists r,
     Agent.run AgentScenario.NOW AgentScenario.names_text 1
       AgentScenario.structured_history_agent "Hello again"
       AgentScenario.first_structured_run_new_messages = Agent.Done r /\
     Agent._new_message_index r = 6%nat /\
     Agent.new_messages r
     = [UserPrompt "Hello again" AgentScenario.NOW;
        ModelResponse
          (ModelStructuredResponse [AgentScenario.final_result_call] AgentScenario.NOW);
        ToolReturn "final_result" "Final result processed." None AgentScenario.NOW]).
Proof. split; eexists; (split; [reflexivity |]); by split. Qed.

Lemma test_empty_tool_calls :
  Agent.run AgentScenario.NOW AgentScenario.names_text 1
    (AgentScenario.plain_agent AgentScenario.empty_calls_model) "Hello" []
  = Agent.Fatal (UnexpectedModelBehavior "Received empty tool call message")
      [UserPrompt "Hello" AgentScenario.NOW;
       ModelResponse (ModelStructuredResponse [] AgentScenario.NOW)].
Proof. reflexivity. Qed.

Lemma filter_is_system_none (messages : list Message) :
  existsb is_system messages = false -> List.filter is_system messages = [].
Proof.
  induction messages as [|m messages IH]; simpl; [done |].
  destruct (is_system m); simpl; [done | exact IH].
Qed.

(** C3 as the tests pin it. For every run that ends in [Done], the index of
    the result is the length of the supplied history plus the number of
    system prompts the run inserted in front of it (none when the history
    already has one); [new_messages()] is [all_messages()] sliced from that
    index, and the slice is exactly the user prompt of this run followed by
    the messages the loop appended after it. *)
Theorem run_done_new_message_index {ResultData : Type} (now : datetime)
    (tool_names_text : list string -> string) (self : Agent.t ResultData) (fuel : nat)
    (user_prompt : string) (message_history : list Message) (r : Agent.RunResult ResultData) :
  Agent.run now tool_names_text fuel self user_prompt message_history = Agent.Done r ->
  Agent._new_message_index r
  = (length message_history + length (inserted_system_prompts self message_history))%nat /\
  (existsb is_system message_history = true ->
   Agent._new_message_index r = length message_history) /\
  Agent.new_messages r = drop (Agent._new_message_index r) (Agent.all_messages r) /\
  exists produced,
    Agent.all_messages r
    = inserted_system_prompts self message_history ++ message_history
      ++ UserPrompt user_prompt now :: produced /\
    Agent.new_messages r = UserPrompt user_prompt now :: produced.
Proof.
  unfold Agent.run. rewrite prepare_messages_spec.
  intros (Hidx & produced & Hall)%run_loop_done.
  assert (Agent._new_message_index r
          = (length message_history
             + length (inserted_system_prompts self message_history))%nat) as Hidx'.
  { rewrite Hidx, length_app. lia. }
  split; [exact Hidx' |]. split.
  { intros Hsys. rewrite Hidx'. unfold inserted_system_prompts. rewrite Hsys. simpl. lia. }
  split; [done |].
  exists produced. unfold Agent.new_messages, Agent.all_messages.
  rewrite Hall, Hidx. split.
  - by rewrite <- !app_assoc.
  - replace ((inserted_system_prompts self message_history ++ message_history
              ++ [UserPrompt user_prompt now]) ++ produced)
      with ((inserted_system_prompts self message_history ++ message_history)
            ++ UserPrompt user_prompt now :: produced)
      by (by rewrite <- !app_assoc).
    by rewrite drop_app_length.
Qed.

(** C3 as the tests pin it, at the second run of [test_run_with_history_new]:
    the four messages of the first run are supplied, the system prompt is
    inserted in front of them, and the two new messages start at index 5. *)
Lemma run_done_new_message_index_witness :
  exists r,
    Agent.run AgentScenario.NOW AgentScenario.names_text 1 AgentScenario.history_agent "Hello again"
      AgentScenario.first_run_new_messages = Agent.Done r /\
    Agent._new_message_index r = 5%nat /\
    Agent.new_messages r
    = [UserPrompt "Hello again" AgentScenario.NOW;
       ModelResponse (ModelTextResponse AgentScenario.ret_a_text AgentScenario.NOW)].
Proof.
  eexists. split; [reflexivity |].
  destruct (run_done_new_message_index AgentScenario.NOW AgentScenario.names_text
              AgentScenario.history_agent 1 "Hello again"
              AgentScenario.first_run_new_messages _ eq_refl)
    as (Hidx & _ & Hnew & _).
  split; [exact Hidx |]. rewrite Hnew. reflexivity.
Defined.

(** C3 as stated fails at the second run of [test_run_with_history_new]: the
    history passed in has four messages and the index of the result is 5,
    as the test's snapshot has it. *)
Lemma run_index_is_not_supplied_length :
  exists r,
    Agent.run AgentScenario.NOW AgentScenario.names_text 1 AgentScenario.history_agent
      "Hello again" AgentScenario.first_run_new_messages = Agent.Done r /\
    length AgentScenario.first_run_new_messages = 4%nat /\
    Agent._new_message_index r = 5%nat /\
    Agent._new_message_index r <> length AgentScenario.first_run_new_messages.
Proof. eexists. split; [reflexivity |]. repeat split. simpl. lia. Qed.

(** C4 as the tests pin it. Before the first request the history is the
    supplied one with the user prompt after it and, in front of it, the
    agent's configured system prompts if the supplied history has no
    [SystemPrompt], nothing otherwise. With exactly one prompt configured and
    a history without [SystemPrompt], exactly one is present, at position 0.
    The history of a run that ends in [Done] is as long as the supplied one,
    plus the messages of this run, plus the system prompts inserted. *)
Theorem prepare_messages_system_prompts {ResultData : Type} (now : datetime)
    (tool_names_text : list string -> string) (self : Agent.t ResultData) (fuel : nat)
    (user_prompt : string) (message_history : list Message) :
  let inserted := inserted_system_prompts self message_history in
  let prepared := snd (Agent._prepare_messages now self user_prompt message_history) in
  prepared = inserted ++ message_history ++ [UserPrompt user_prompt now] /\
  (existsb is_system message_history = true -> inserted = []) /\
  (existsb is_system message_history = false ->
   inserted = map SystemPrompt (Agent.system_prompts self)) /\
  (forall prompt,
     existsb is_system message_history = false ->
     Agent.system_prompts self = [prompt] ->
     prepared = SystemPrompt prompt :: message_history ++ [UserPrompt user_prompt now] /\
     List.filter is_system prepared = [SystemPrompt prompt]) /\
  (forall r,
     Agent.run now tool_names_text fuel self user_prompt message_history = Agent.Done r ->
     length (Agent.all_messages r)
     = (length message_history + length (Agent.new_messages r) + length inserted)%nat).
Proof.
  intros inserted prepared. subst prepared. rewrite prepare_messages_spec. simpl.
  fold inserted. split; [done |].
  split. { subst inserted. unfold inserted_system_prompts. by intros ->. }
  split. { subst inserted. unfold inserted_system_prompts. by intros ->. }
  split.
  - intros prompt Hnone Hone. subst inserted. unfold inserted_system_prompts.
    rewrite Hnone, Hone. simpl. split; [done |].
    rewrite List.filter_app, (filter_is_system_none _ Hnone). done.
  - intros r Hr.
    destruct (run_done_new_message_index now tool_names_text self fuel user_prompt
                message_history r Hr) as (_ & _ & _ & produced & Hall & Hnew).
    rewrite Hall, Hnew. fold inserted. rewrite !length_app. simpl. lia.
Qed.

(** C4 as the tests pin it, at the second run of [test_run_with_history_new]:
    one system prompt is configured, the supplied history has none, and the
    prepared history starts with it and has no other. *)
Lemma prepare_messages_system_prompts_witness :
  snd (Agent._prepare_messages AgentScenario.NOW AgentScenario.history_agent "Hello again"
         AgentScenario.first_run_new_messages)
  = SystemPrompt "Foobar"
    :: AgentScenario.first_run_new_messages ++ [UserPrompt "Hello again" AgentScenario.NOW] /\
  List.filter is_system
    (snd (Agent._prepare_messages AgentScenario.NOW AgentScenario.history_agent "Hello again"
            AgentScenario.first_run_new_messages))
  = [SystemPrompt "Foobar"].
Proof.
  destruct (prepare_messages_system_prompts AgentScenario.NOW AgentScenario.names_text
              AgentScenario.history_agent 1 "Hello again"
              AgentScenario.first_run_new_messages)
    as (_ & _ & _ & Hone & _).
  exact (Hone "Foobar" eq_refl eq_refl).
Defined.

(** C4 as stated fails for an agent without a configured system prompt, as
    in [test_unknown_tool_fix]: the history has no [SystemPrompt] and the run
    inserts none, so that none is present at the end either. *)
Lemma run_without_configured_system_prompt :
  exists r,
    Agent.run AgentScenario.NOW AgentScenario.names_text 2
      (AgentScenario.plain_agent AgentScenario.unknown_tool_fix_model) "Hello" []
    = Agent.Done r /\
    Agent.all_messages r
    = [UserPrompt "Hello" AgentScenario.NOW;
       ModelResponse
         (ModelStructuredResponse [AgentScenario.foobar_call] AgentScenario.NOW);
       RetryPrompt (RetryText "Unknown tool name: 'foobar'. No tools available.")
         None None AgentScenario.NOW;
       ModelResponse (ModelTextResponse "success" AgentScenario.NOW)] /\
    List.filter is_system (Agent.all_messages r) = [] /\
    List.filter is_system
      (snd (Agent._prepare_messages AgentScenario.NOW
              (AgentScenario.plain_agent AgentScenario.unknown_tool_fix_model) "Hello again"
              [UserPrompt "Hello" AgentScenario.NOW]))
    = [].
Proof. eexists. split; [reflexivity |]. repeat split. Qed.

(** C7. A call whose name matches neither a function tool nor a result tool
    draws exactly one [RetryPrompt], with the content
    [Unknown tool name: '<name>'.] followed by the list of valid names, or by
    [No tools available.] when there is none, and takes exactly one retry
    slot; when no slot is left the run is fatal instead. With the default
    maximum of 1, a second consecutive response naming an unknown tool ends
    the run with [Exceeded maximum retries (1) for result validation], the
    history holding the one retry prompt between the two responses. *)
Theorem unknown_tool_consumes_one_retry {ResultData : Type} (now : datetime)
    (tool_names_text : list string -> string) (self : Agent.t ResultData)
    (retries : nat) (call : ToolCall.t) :
  matches_no_tool self call ->
  let prompt := unknown_tool_prompt now tool_names_text self call in
  ((retries < Agent.max_result_retries self)%nat ->
   Agent.process_call now tool_names_text self retries call
   = Agent.Continue [prompt] (S retries) /\
   forall timestamp,
     Agent._handle_model_response now tool_names_text self retries
       (ModelStructuredResponse [call] timestamp)
     = Agent.Continue [prompt] (S retries)) /\
  ((Agent.max_result_retries self <= retries)%nat ->
   Agent.process_call now tool_names_text self retries call
   = Agent.Abort (retries_exceeded (decimal (Agent.max_result_retries self))) /\
   forall timestamp,
     Agent._handle_model_response now tool_names_text self retries
       (ModelStructuredResponse [call] timestamp)
     = Agent.Abort (retries_exceeded (decimal (Agent.max_result_retries self)))) /\
  (Agent.max_result_retries self = Agent.DEFAULT_RETRIES ->
   forall fuel user_prompt message_history call2 timestamp1 timestamp2 cost1 cost2,
     matches_no_tool self call2 ->
     let messages := snd (Agent._prepare_messages now self user_prompt message_history) in
     let response1 := ModelResponse (ModelStructuredResponse [call] timestamp1) in
     let response2 := ModelResponse (ModelStructuredResponse [call2] timestamp2) in
     Agent.model self messages = (ModelStructuredResponse [call] timestamp1, cost1) ->
     Agent.model self (messages ++ [response1; prompt])
     = (ModelStructuredResponse [call2] timestamp2, cost2) ->
     Agent.run now tool_names_text (S (S fuel)) self user_prompt message_history
     = Agent.Fatal (retries_exceeded "1") (messages ++ [response1; prompt; response2])).
Proof.
  intros Hcall prompt. split; [| split].
  - intros Hlt. split.
    + by rewrite process_call_unknown, retry_with_below.
    + intros timestamp. simpl. by rewrite process_call_unknown, retry_with_below.
  - intros Hle. split.
    + by rewrite process_call_unknown, retry_with_exceeded.
    + intros timestamp. simpl. by rewrite process_call_unknown, retry_with_exceeded.
  - intros Hmax fuel user_prompt message_history call2 timestamp1 timestamp2 cost1 cost2
      Hcall2 messages response1 response2 Hmodel1 Hmodel2.
    unfold Agent.run. subst messages. destruct (Agent._prepare_messages _ _ _ _)
      as [new_message_index messages]. simpl in *.
    rewrite Hmodel1. simpl.
    rewrite process_call_unknown by done.
    rewrite retry_with_below by (rewrite Hmax; unfold Agent.DEFAULT_RETRIES; lia).
    simpl. fold prompt.
    replace ((messages ++ [ModelResponse (ModelStructuredResponse [call] timestamp1)])
             ++ [prompt])
      with (messages ++ [response1; prompt]) by (by rewrite <- app_assoc).
    rewrite Hmodel2. simpl.
    rewrite process_call_unknown by done.
    rewrite retry_with_exceeded by (rewrite Hmax; unfold Agent.DEFAULT_RETRIES; lia).
    rewrite Hmax. simpl. by rewrite <- app_assoc.
Qed.

(** C7 at [test_unknown_tool]: an agent without tools, whose model always
    calls [foobar], fails on the second response, with the history of the
    test's snapshot. *)
Lemma unknown_tool_consumes_one_retry_witness :
  Agent.run AgentScenario.NOW AgentScenario.names_text 2
    (AgentScenario.plain_agent AgentScenario.unknown_tool_model) "Hello" []
  = Agent.Fatal
      (UnexpectedModelBehavior "Exceeded maximum retries (1) for result validation")
      [UserPrompt "Hello" AgentScenario.NOW;
       ModelResponse
         (ModelStructuredResponse [AgentScenario.foobar_call] AgentScenario.NOW);
       RetryPrompt (RetryText "Unknown tool name: 'foobar'. No tools available.")
         None None AgentScenario.NOW;
       ModelResponse
         (ModelStructuredResponse [AgentScenario.foobar_call] AgentScenario.NOW)].
Proof.
  assert (matches_no_tool (AgentScenario.plain_agent AgentScenario.unknown_tool_model)
            AgentScenario.foobar_call) as Hcall.
  { unfold matches_no_tool. simpl. apply not_elem_of_nil. }
  destruct (unknown_tool_consumes_one_retry AgentScenario.NOW AgentScenario.names_text
              (AgentScenario.plain_agent AgentScenario.unknown_tool_model) 0
              AgentScenario.foobar_call Hcall)
    as (_ & _ & Hrun).
  exact (Hrun eq_refl 0%nat "Hello" [] AgentScenario.foobar_call AgentScenario.NOW
           AgentScenario.NOW Cost.empty Cost.empty Hcall eq_refl eq_refl).
Defined.

(** ** The result schema *)

Section SchemaFacts.
Context {ResultData : Type}.

Lemma final_result_name_inj (a b : string) :
  "final_result_" +:+ a = "final_result_" +:+ b -> a = b.
Proof. intros H. cbn in H. by injection H. Qed.

Lemma find_tool_in_union (members : list (MemberType.t ResultData)) :
  NoDup (map MemberType.type_name members) ->
  forall m,
    m ∈ members ->
    ResultSchema.find_tool_in
      (map (fun m => ResultSchema.build_tool ("final_result_" +:+ MemberType.type_name m) true m)
         members)
      ("final_result_" +:+ MemberType.type_name m)
    = Some (snd (ResultSchema.build_tool ("final_result_" +:+ MemberType.type_name m) true m)).
Proof.
  induction members as [|m0 members IH]; intros Hnodup m Hin.
  { by apply elem_of_nil in Hin. }
  simpl in Hnodup. apply NoDup_cons in Hnodup as [Hfresh Hnodup].
  cbn [map ResultSchema.find_tool_in ResultSchema.build_tool].
  destruct (String.eqb_spec ("final_result_" +:+ MemberType.type_name m0)
              ("final_result_" +:+ MemberType.type_name m)) as [Heq|Hne].
  - apply final_result_name_inj in Heq.
    apply elem_of_cons in Hin as [->|Hin]; [done |].
    exfalso. apply Hfresh. rewrite Heq.
    by apply (list_elem_of_fmap_2 MemberType.type_name).
  - apply elem_of_cons in Hin as [->|Hin]; [done |].
    by apply IH.
Qed.

Lemma build_union (result_type : list (ResultMember ResultData)) :
  (1 < length (ResultSchema.tool_members result_type))%nat ->
  ResultSchema.tools (ResultSchema.build result_type)
  = map (fun m => ResultSchema.build_tool ("final_result_" +:+ MemberType.type_name m) true m)
      (ResultSchema.tool_members result_type).
Proof.
  unfold ResultSchema.build.
  destruct (ResultSchema.tool_members result_type) as [|m1 [|m2 members]]; simpl;
    [lia | lia | done].
Qed.

End SchemaFacts.

(** C8 as the tests pin it. When the declared result type has more than one
    member other than plain [str], with distinct names, each such member has
    its own tool [final_result_<MemberTypeName>]; the tool's description is
    the member's docstring when it has one and
    [<MemberTypeName>: The final response which ends this conversation]
    otherwise; and a call of that tool is validated by that member's
    validation alone. *)
Theorem union_result_tools {ResultData : Type} (result_type : list (ResultMember ResultData)) :
  let members := ResultSchema.tool_members result_type in
  let schema := ResultSchema.build result_type in
  (1 < length members)%nat ->
  NoDup (map MemberType.type_name members) ->
  ResultSchema.tool_names schema
  = map (fun m => "final_result_" +:+ MemberType.type_name m) members /\
  forall m,
    m ∈ members ->
    exists tool,
      ResultSchema.find_tool schema ("final_result_" +:+ MemberType.type_name m) = Some tool /\
      ResultTool.member tool = m /\
      ToolDefinition.name (ResultTool.tool_def tool)
      = "final_result_" +:+ MemberType.type_name m /\
      ToolDefinition.description (ResultTool.tool_def tool)
      = match MemberType.docstring m with
        | Some doc => doc
        | None =>
            MemberType.type_name m +:+ ": "
            +:+ "The final response which ends this conversation"
        end /\
      forall call,
        ToolCall.tool_name call = "final_result_" +:+ MemberType.type_name m ->
        ResultSchema.dispatch schema call
        = Some (MemberType.validate m (ToolCall.args call)).
Proof.
  intros members schema Hmany Hnodup. subst schema.
  unfold ResultSchema.tool_names, ResultSchema.dispatch, ResultSchema.find_tool.
  rewrite build_union by done. fold members. split.
  - rewrite map_map. done.
  - intros m Hin. eexists. split; [by apply find_tool_in_union |].
    split; [done |]. split; [done |]. split.
    + simpl. unfold ResultSchema.tool_description. by destruct (MemberType.docstring m).
    + intros call ->. by rewrite find_tool_in_union.
Qed.

(** C8 as the tests pin it, at [Union[Foo, Bar]]: the two tools of
    [test_response_multiple_return_tools], and a call of [final_result_Bar]
    validated as a [Bar]. *)
Lemma union_result_tools_witness :
  ResultSchema.tool_names
    (ResultSchema.build [member_type AgentScenario.Foo; member_type AgentScenario.Bar])
  = ["final_result_Foo"; "final_result_Bar"] /\
  ResultSchema.dispatch
    (ResultSchema.build [member_type AgentScenario.Foo; member_type AgentScenario.Bar])
    (ToolCall.from_dict "final_result_Bar" [("b", JStr "b")])
  = Some (Valid (AgentScenario.DataModel "Bar" [("b", JStr "b")])).
Proof.
  assert (NoDup (map MemberType.type_name
                   (ResultSchema.tool_members
                      [member_type AgentScenario.Foo; member_type AgentScenario.Bar])))
    as Hnodup.
  { simpl. apply NoDup_cons. split; [| apply NoDup_singleton].
    intros Hin%list_elem_of_singleton. discriminate Hin. }
  destruct (union_result_tools
              [member_type AgentScenario.Foo; member_type AgentScenario.Bar]
              ltac:(simpl; lia) Hnodup)
    as [Hnames Htools].
  split; [exact Hnames |].
  destruct (Htools AgentScenario.Bar ltac:(simpl; apply list_elem_of_further, list_elem_of_here))
    as (tool & _ & _ & _ & _ & Hdispatch).
  exact (Hdispatch (ToolCall.from_dict "final_result_Bar" [("b", JStr "b")]) eq_refl).
Defined.

(** C8 as stated fails at [Union[Foo, Bar]]: the description of the tool of
    [Bar], whose docstring is [This is a bar model.], is the bare docstring,
    as the snapshot of [test_response_multiple_return_tools] has it, and not
    [Bar: This is a bar model.]. It fails at [Union[str, Foo]] too, a union
    of two members whose only tool is [final_result], as in
    [test_response_union_allow_str]. *)
Lemma union_tool_description_is_bare_docstring :
  ResultSchema.tool_names
    (ResultSchema.build [member_str; member_type AgentScenario.Foo])
  = ["final_result"] /\
  map ToolDefinition.description
    (ResultSchema.tool_defs
       (ResultSchema.build [member_type AgentScenario.Foo; member_type AgentScenario.Bar]))
  = ["Foo: The final response which ends this conversation"; "This is a bar model."] /\
  MemberType.docstring AgentScenario.Bar = Some "This is a bar model." /\
  map ToolDefinition.description
    (ResultSchema.tool_defs
       (ResultSchema.build [member_type AgentScenario.Foo; member_type AgentScenario.Bar]))
  <> ["Foo: The final response which ends this conversation"; "Bar: This is a bar model."].
Proof. split; [reflexivity |]. split; [reflexivity |]. split; [reflexivity |]. discriminate. Qed.

(** * Further properties of the adapter *)

(** ** Which branch the bootstrap takes *)

Lemma bootstrap_loop_branch (stream : list ChatCompletionChunk.t) :
  forall timestamp start_cost,
    match List.find has_content_or_tool_calls stream with
    | None =>
        _process_streamed_response_loop stream timestamp start_cost = Raise BOOTSTRAP_ERROR
    | Some chunk =>
        exists r,
          _process_streamed_response_loop stream timestamp start_cost = Ok r /\
          match chunk_content chunk with
          | Some content =>
              exists t,
                r = StreamText t /\
                OpenAIStreamTextResponse._first t = Some content /\
                OpenAIStreamTextResponse._buffer t = []
          | None =>
              exists s,
                r = StreamStructured s /\
                OpenAIStreamStructuredResponse._delta_tool_calls s
                = PyDict.comprehension ChoiceDeltaToolCall.index
                    (default [] (chunk_tool_calls chunk))
          end
    end.
Proof.
  induction stream as [|chunk rest IH]; intros timestamp start_cost; [done |].
  cbn [List.find _process_streamed_response_loop].
  destruct (has_content_or_tool_calls chunk) eqn:Hchunk;
    unfold has_content_or_tool_calls in Hchunk; unfold chunk_content, chunk_tool_calls;
    destruct (ChatCompletionChunk.choices chunk) as [|choice choices];
    try discriminate Hchunk; try apply IH;
    destruct (ChoiceDelta.content (ChunkChoice.delta choice)) as [content|];
    try discriminate Hchunk;
    try (eexists; split; [done |]; by eexists);
    destruct (ChoiceDelta.tool_calls (ChunkChoice.delta choice)) as [tool_calls|];
    try discriminate Hchunk;
    try (eexists; split; [done |]; by eexists).
  apply IH.
Qed.

(** X1. The bootstrap is decided by the first chunk that has a first choice
    with a [content] or a [tool_calls]: without such a chunk it raises
    [UnexpectedModelBehavior]; if that chunk has a [content] the response is
    a text response holding it as its first fragment, whatever [tool_calls]
    the chunk also has; otherwise it is a structured response whose map is
    built from that chunk's [tool_calls]. *)
Theorem bootstrap_branch (stream : list ChatCompletionChunk.t) :
  match List.find has_content_or_tool_calls stream with
  | None => _process_streamed_response stream = Raise BOOTSTRAP_ERROR
  | Some chunk =>
      exists r,
        _process_streamed_response stream = Ok r /\
        match chunk_content chunk with
        | Some content =>
            exists t,
              r = StreamText t /\
              OpenAIStreamTextResponse._first t = Some content /\
              OpenAIStreamTextResponse._buffer t = []
        | None =>
            exists s,
              r = StreamStructured s /\
              OpenAIStreamStructuredResponse._delta_tool_calls s
              = PyDict.comprehension ChoiceDeltaToolCall.index
                  (default [] (chunk_tool_calls chunk))
        end
  end.
Proof. apply bootstrap_loop_branch. Qed.

(** ** The text branch *)

Lemma bootstrap_loop_text (chunk : ChatCompletionChunk.t) (rest : list ChatCompletionChunk.t)
    (content : string) (timestamp : option datetime) (start_cost : Cost.t) :
  chunk_content chunk = Some content ->
  _process_streamed_response_loop (chunk :: rest) timestamp start_cost
  = Ok (StreamText
          (OpenAIStreamTextResponse.mk (Some content) rest
             (py_or timestamp (fromtimestamp (ChatCompletionChunk.created chunk)))
             (Cost.add start_cost (_map_cost chunk)) [])).
Proof.
  unfold chunk_content. simpl.
  destruct (ChatCompletionChunk.choices chunk) as [|choice choices]; [done |].
  by intros ->.
Qed.

Lemma text_anext_content (chunk : ChatCompletionChunk.t) (rest : list ChatCompletionChunk.t)
    (content : string) (timestamp : datetime) (cost : Cost.t) (buffer : list string) :
  chunk_content chunk = Some content ->
  OpenAIStreamTextResponse.__anext__
    (OpenAIStreamTextResponse.mk None (chunk :: rest) timestamp cost buffer)
  = (OpenAIStreamTextResponse.mk None rest timestamp (Cost.add cost (_map_cost chunk))
       (buffer ++ [content]),
     Ok tt).
Proof.
  unfold chunk_content, OpenAIStreamTextResponse.__anext__. simpl.
  destruct (ChatCompletionChunk.choices chunk) as [|choice choices]; [done |].
  intros ->. by destruct (ChunkChoice.finish_reason choice).
Qed.

Lemma text_anext_times_contents (chunks : list ChatCompletionChunk.t)
    (fragments : list string) :
  Forall2 (fun chunk fragment => chunk_content chunk = Some fragment) chunks fragments ->
  forall rest timestamp cost buffer,
    text_anext_times (length chunks)
      (OpenAIStreamTextResponse.mk None (chunks ++ rest) timestamp cost buffer)
    = OpenAIStreamTextResponse.mk None rest timestamp
        (fold_left Cost.add (map (fun chunk => _map_cost chunk) chunks) cost)
        (buffer ++ fragments).
Proof.
  induction 1 as [|chunk fragment chunks fragments Hchunk _ IH];
    intros rest timestamp cost buffer; simpl.
  - by rewrite app_nil_r.
  - rewrite (text_anext_content _ _ _ _ _ _ Hchunk). simpl.
    rewrite IH. by rewrite <- app_assoc.
Qed.

(** X2. On the text branch no fragment is lost, repeated or reordered: when
    the chunk that starts the response carries the content [c0] and the
    chunks after it carry the contents [fragments], then after one
    [__anext__] for the first fragment and one per chunk the buffer holds
    [c0] followed by [fragments], in their order of arrival, and the stream
    is left at the chunk after them. Chunks without content or tool calls
    that come first change nothing of this. *)
Theorem text_stream_buffers_fragments
    (skipped chunks rest : list ChatCompletionChunk.t) (chunk0 : ChatCompletionChunk.t)
    (c0 : string) (fragments : list string) :
  Forall (fun chunk => has_content_or_tool_calls chunk = false) skipped ->
  chunk_content chunk0 = Some c0 ->
  Forall2 (fun chunk fragment => chunk_content chunk = Some fragment) chunks fragments ->
  exists t,
    _process_streamed_response (skipped ++ chunk0 :: chunks ++ rest) = Ok (StreamText t) /\
    OpenAIStreamTextResponse._buffer t = [] /\
    let t' := text_anext_times (S (length chunks)) t in
    OpenAIStreamTextResponse._first t' = None /\
    OpenAIStreamTextResponse._buffer t' = c0 :: fragments /\
    OpenAIStreamTextResponse._response t' = rest.
Proof.
  intros Hskipped Hchunk0 Hchunks. unfold _process_streamed_response.
  rewrite bootstrap_loop_skip by done.
  rewrite (bootstrap_loop_text _ _ _ _ _ Hchunk0).
  eexists. split; [done |]. split; [done |].
  cbn [text_anext_times OpenAIStreamTextResponse.__anext__
         OpenAIStreamTextResponse._first fst].
  cbn [OpenAIStreamTextResponse._response OpenAIStreamTextResponse._timestamp
         OpenAIStreamTextResponse._cost OpenAIStreamTextResponse._buffer app].
  by rewrite (text_anext_times_contents _ _ Hchunks).
Qed.

(** X2 at a concrete stream: a heartbeat, then [Hello] and [ world]. *)
Lemma text_stream_buffers_fragments_witness :
  exists t,
    _process_streamed_response Scenario.late_content_stream = Ok (StreamText t) /\
    OpenAIStreamTextResponse._buffer (text_anext_times 2 t) = ["Hello"; " world"].
Proof.
  destruct (text_stream_buffers_fragments [Scenario.heartbeat 100 7 0]
              [Scenario.chunk_of 200 (Some " world") None] []
              (Scenario.chunk_of 200 (Some "Hello") None) "Hello" [" world"])
    as (t & Ht & _ & _ & Hbuffer & _).
  - by repeat constructor.
  - reflexivity.
  - by repeat constructor.
  - exists t. split; [exact Ht | exact Hbuffer].
Defined.

Lemma get_nexts_exhausts (fuel index : nat) :
  forall t : OpenAIStreamTextResponse.t,
    (length (OpenAIStreamTextResponse._buffer t) - index < fuel)%nat ->
    get_nexts fuel (OpenAIStreamTextResponse.get_iterating index) t
    = (drop index (OpenAIStreamTextResponse._buffer t),
       OpenAIStreamTextResponse.get_finished, buffer_cleared t).
Proof.
  revert index. induction fuel as [|fuel IH]; intros index t Hfuel; [lia |].
  simpl. destruct (OpenAIStreamTextResponse._buffer t !! index) as [fragment|] eqn:Hindex.
  - rewrite IH.
    + by rewrite (drop_S _ _ _ Hindex).
    + apply lookup_lt_Some in Hindex. lia.
  - apply lookup_ge_None in Hindex. by rewrite drop_ge.
Qed.

Lemma get_nexts_lazy (n index : nat) :
  forall t : OpenAIStreamTextResponse.t,
    (index + n <= length (OpenAIStreamTextResponse._buffer t))%nat ->
    get_nexts n (OpenAIStreamTextResponse.get_iterating index) t
    = (take n (drop index (OpenAIStreamTextResponse._buffer t)),
       OpenAIStreamTextResponse.get_iterating (index + n), t).
Proof.
  revert index. induction n as [|n IH]; intros index t Hn; simpl.
  - by rewrite Nat.add_0_r.
  - destruct (OpenAIStreamTextResponse._buffer t !! index) as [fragment|] eqn:Hindex.
    + replace (index + S n)%nat with (S index + n)%nat by lia.
      rewrite IH by lia. by rewrite (drop_S _ _ _ Hindex).
    + apply lookup_ge_None in Hindex. lia.
Qed.

(** X3. [get] is a generator and drains lazily. Consumed to exhaustion from
    any position it yields the fragments of the buffer from that position on,
    those appended meanwhile included, and only then clears the buffer; a
    generator consumed after that yields nothing. As long as it is not
    exhausted it clears nothing: after [n] calls of [next] that each found a
    fragment the buffer is as before, so that a second generator exhausted
    then yields the whole buffer, the fragments the first one has already
    delivered included. *)
Theorem text_get_generator (t : OpenAIStreamTextResponse.t) :
  (forall fuel index,
     (length (OpenAIStreamTextResponse._buffer t) - index < fuel)%nat ->
     get_nexts fuel (OpenAIStreamTextResponse.get_iterating index) t
     = (drop index (OpenAIStreamTextResponse._buffer t),
        OpenAIStreamTextResponse.get_finished, buffer_cleared t)) /\
  (forall fuel,
     (length (OpenAIStreamTextResponse._buffer t) < fuel)%nat ->
     get_nexts fuel (OpenAIStreamTextResponse.get t) t
     = (OpenAIStreamTextResponse._buffer t,
        OpenAIStreamTextResponse.get_finished, buffer_cleared t) /\
     get_nexts fuel (OpenAIStreamTextResponse.get (buffer_cleared t)) (buffer_cleared t)
     = ([], OpenAIStreamTextResponse.get_finished, buffer_cleared t)) /\
  (forall n fuel,
     (n <= length (OpenAIStreamTextResponse._buffer t))%nat ->
     (S (length (OpenAIStreamTextResponse._buffer t)) < fuel)%nat ->
     exists g,
       get_nexts n (OpenAIStreamTextResponse.get t) t
       = (take n (OpenAIStreamTextResponse._buffer t), g, t) /\
       g = OpenAIStreamTextResponse.get_iterating n /\
       get_nexts fuel (OpenAIStreamTextResponse.get t) t
       = (OpenAIStreamTextResponse._buffer t,
          OpenAIStreamTextResponse.get_finished, buffer_cleared t) /\
       fst (fst (get_nexts fuel g (fst (OpenAIStreamTextResponse.__anext__ t))))
       = drop n (OpenAIStreamTextResponse._buffer
                   (fst (OpenAIStreamTextResponse.__anext__ t)))).
Proof.
  split; [| split].
  - intros fuel index Hfuel. by apply get_nexts_exhausts.
  - intros fuel Hfuel. unfold OpenAIStreamTextResponse.get. split.
    + rewrite get_nexts_exhausts by lia. by rewrite drop_0.
    + rewrite get_nexts_exhausts by (simpl; lia). done.
  - intros n fuel Hn Hfuel. eexists. unfold OpenAIStreamTextResponse.get.
    split; [| split; [reflexivity | split]].
    + rewrite get_nexts_lazy by (simpl; lia). by rewrite drop_0.
    + rewrite get_nexts_exhausts by lia. by rewrite drop_0.
    + simpl.
      assert (length (OpenAIStreamTextResponse._buffer
                        (fst (OpenAIStreamTextResponse.__anext__ t)))
              <= S (length (OpenAIStreamTextResponse._buffer t)))%nat as Hgrow.
      { unfold OpenAIStreamTextResponse.__anext__.
        destruct (OpenAIStreamTextResponse._first t); simpl.
        { rewrite length_app. simpl. lia. }
        destruct (OpenAIStreamTextResponse._response t) as [|chunk rest]; simpl; [lia |].
        destruct (ChatCompletionChunk.choices chunk) as [|choice choices]; simpl; [lia |].
        destruct (ChunkChoice.finish_reason choice),
                 (ChoiceDelta.content (ChunkChoice.delta choice)); simpl;
          rewrite ?length_app; simpl; lia. }
      rewrite get_nexts_exhausts by lia. done.
Qed.

(** X3 at a buffer that holds [Hello] and [ world]: a first generator yields
    [Hello] and is left there; a second one, exhausted, yields both fragments
    and clears the buffer. *)
Lemma text_get_generator_witness :
  exists g,
    get_nexts 1 (OpenAIStreamTextResponse.get Scenario.two_fragments_response)
      Scenario.two_fragments_response
    = (["Hello"], g, Scenario.two_fragments_response) /\
    get_nexts 4 (OpenAIStreamTextResponse.get Scenario.two_fragments_response)
      Scenario.two_fragments_response
    = (["Hello"; " world"], OpenAIStreamTextResponse.get_finished,
       buffer_cleared Scenario.two_fragments_response).
Proof.
  destruct (text_get_generator Scenario.two_fragments_response) as (_ & _ & Hlazy).
  destruct (Hlazy 1%nat 4%nat ltac:(simpl; lia) ltac:(simpl; lia))
    as (g & Hfirst & _ & Hsecond & _).
  exists g. split; [exact Hfirst | exact Hsecond].
Defined.

(** ** Cost accounting over a whole stream *)

Lemma bootstrap_loop_consumed (stream : list ChatCompletionChunk.t) :
  forall timestamp start_cost r,
    _process_streamed_response_loop stream timestamp start_cost = Ok r ->
    exists k,
      (1 <= k <= length stream)%nat /\
      either_response r = drop k stream /\
      either_cost r
      = fold_left Cost.add (map (fun chunk => _map_cost chunk) (take k stream)) start_cost.
Proof.
  induction stream as [|chunk rest IH]; intros timestamp start_cost r; [done |].
  simpl. intros Hr.
  assert (forall r',
            Ok r' = Ok r ->
            either_response r' = rest ->
            either_cost r' = Cost.add start_cost (_map_cost chunk) ->
            exists k,
              (1 <= k <= S (length rest))%nat /\
              either_response r = drop k (chunk :: rest) /\
              either_cost r
              = fold_left Cost.add
                  (map (fun chunk => _map_cost chunk) (take k (chunk :: rest))) start_cost)
    as Hnow.
  { intros r' [= <-] Hrest Hcost. exists 1%nat. simpl. rewrite ?drop_0, ?take_0. simpl.
    split; [lia | done]. }
  assert (_process_streamed_response_loop rest
            (Some (py_or timestamp (fromtimestamp (ChatCompletionChunk.created chunk))))
            (Cost.add start_cost (_map_cost chunk)) = Ok r ->
          exists k,
            (1 <= k <= S (length rest))%nat /\
            either_response r = drop k (chunk :: rest) /\
            either_cost r
            = fold_left Cost.add
                (map (fun chunk => _map_cost chunk) (take k (chunk :: rest))) start_cost)
    as Hlater.
  { intros (k & Hk & Hrest & Hcost)%IH. exists (S k). simpl. split; [lia | done]. }
  destruct (ChatCompletionChunk.choices chunk) as [|choice choices]; [by apply Hlater |].
  destruct (ChoiceDelta.content (ChunkChoice.delta choice)); [by eapply Hnow |].
  destruct (ChoiceDelta.tool_calls (ChunkChoice.delta choice)); [by eapply Hnow |].
  by apply Hlater.
Qed.

Lemma either_anext_consumed (r : EitherStreamedResponse) :
  exists j,
    (j <= length (either_response r))%nat /\
    either_response (fst (either_anext r)) = drop j (either_response r) /\
    either_cost (fst (either_anext r))
    = fold_left Cost.add
        (map (fun chunk => _map_cost chunk) (take j (either_response r))) (either_cost r).
Proof.
  destruct r as [t|s]; simpl.
  - destruct (OpenAIStreamTextResponse.__anext__ t) as [t' o] eqn:Hnext. simpl.
    unfold OpenAIStreamTextResponse.__anext__ in Hnext.
    destruct t as [first response timestamp cost buffer]. simpl in *.
    destruct first as [first|].
    { injection Hnext as <- _. exists 0%nat. simpl. split; [lia | by rewrite drop_0]. }
    destruct response as [|chunk rest].
    { injection Hnext as <- _. exists 0%nat. simpl. split; [lia | done]. }
    exists 1%nat. simpl. rewrite ?drop_0, ?take_0. split; [lia |].
    destruct (ChatCompletionChunk.choices chunk) as [|choice choices].
    { by injection Hnext as <- _. }
    destruct (ChunkChoice.finish_reason choice),
             (ChoiceDelta.content (ChunkChoice.delta choice));
      by injection Hnext as <- _.
  - destruct (OpenAIStreamStructuredResponse.__anext__ s) as [s' o] eqn:Hnext. simpl.
    unfold OpenAIStreamStructuredResponse.__anext__ in Hnext.
    destruct s as [response d timestamp cost]. simpl in *.
    destruct response as [|chunk rest].
    { injection Hnext as <- _. exists 0%nat. simpl. split; [lia | done]. }
    exists 1%nat. simpl. rewrite ?drop_0, ?take_0. split; [lia |].
    destruct (ChatCompletionChunk.choices chunk) as [|choice choices].
    { by injection Hnext as <- _. }
    destruct (ChunkChoice.finish_reason choice).
    { by injection Hnext as <- _. }
    destruct (ChoiceDelta.content (ChunkChoice.delta choice));
      by injection Hnext as <- _.
Qed.

Lemma anext_times_consumed (n : nat) :
  forall r,
    exists j,
      (j <= length (either_response r))%nat /\
      either_response (anext_times n r) = drop j (either_response r) /\
      either_cost (anext_times n r)
      = fold_left Cost.add
          (map (fun chunk => _map_cost chunk) (take j (either_response r))) (either_cost r).
Proof.
  induction n as [|n IH]; intros r; simpl.
  - exists 0%nat. rewrite ?drop_0, ?take_0. split; [lia | done].
  - destruct (either_anext_consumed r) as (j0 & Hj0 & Hresponse0 & Hcost0).
    destruct (IH (fst (either_anext r))) as (j & Hj & Hresponse & Hcost).
    exists (j0 + j)%nat. rewrite Hresponse0 in Hj, Hresponse, Hcost.
    rewrite length_drop in Hj. split; [lia |].
    rewrite Hresponse, Hcost, Hcost0, drop_drop. split; [done |].
    by rewrite <- take_take_drop, map_app, fold_left_app.
Qed.

(** X4. At any moment of a streamed response the accumulated cost is the
    usage of exactly the chunks read from the stream so far, each counted
    once: after the bootstrap and any number of [__anext__], however they
    ended, the response holds what is left of the stream past some prefix and
    its cost is the sum of [_map_cost] over that prefix (chunks skipped by the
    bootstrap, chunks that ended the stream and chunks that failed an
    assertion included). *)
Theorem streamed_cost_is_consumed_usage
    (stream : list ChatCompletionChunk.t) (r : EitherStreamedResponse) (n : nat) :
  _process_streamed_response stream = Ok r ->
  exists k,
    (1 <= k <= length stream)%nat /\
    either_response (anext_times n r) = drop k stream /\
    either_cost (anext_times n r)
    = Cost.sum (map (fun chunk => _map_cost chunk) (take k stream)).
Proof.
  intros (k & Hk & Hresponse & Hcost)%bootstrap_loop_consumed.
  destruct (anext_times_consumed n r) as (j & Hj & Hresponse' & Hcost').
  rewrite Hresponse in Hj, Hresponse', Hcost'. rewrite length_drop in Hj.
  exists (k + j)%nat. split; [lia |].
  rewrite Hresponse', Hcost', Hcost, drop_drop. split; [done |].
  unfold Cost.sum. by rewrite <- take_take_drop, map_app, fold_left_app.
Qed.

(** X4 at a concrete stream: a heartbeat reporting 7 prompt tokens, two
    chunks of text and a trailing chunk that has only usage (5 and 3); once
    everything is read the cost has the 12 prompt tokens. *)
Lemma streamed_cost_is_consumed_usage_witness :
  exists r,
    _process_streamed_response
      (Scenario.late_content_stream ++ [Scenario.heartbeat 200 5 3]) = Ok r /\
    either_response (anext_times 4 r) = [] /\
    Cost.request_tokens (either_cost (anext_times 4 r)) = 12.
Proof.
  eexists. split; [reflexivity |].
  destruct (streamed_cost_is_consumed_usage
              (Scenario.late_content_stream ++ [Scenario.heartbeat 200 5 3]) _ 4 eq_refl)
    as (k & Hk & Hresponse & Hcost).
  split; [reflexivity |]. rewrite Hcost.
  assert (k = 4%nat) as ->.
  { match type of Hresponse with
    | ?l = _ => assert (length l = 0%nat) as Hlen by reflexivity
    end.
    rewrite Hresponse, length_drop in Hlen. simpl in Hk, Hlen. lia. }
  reflexivity.
Defined.

(** ** The structured branch *)

Section PyDictKeys.
Context {V : Type}.
Implicit Types (d : PyDict.t V) (k : Z) (v : V).

Lemma PyDict_get_None_keys d k : PyDict.get k d = None <-> k ∉ PyDict.keys d.
Proof.
  unfold PyDict.keys. induction d as [|[k' v'] d IH]; simpl.
  - split; [intros _; apply not_elem_of_nil | done].
  - rewrite not_elem_of_cons. destruct (Z.eqb_spec k k') as [->|Hne].
    + split; [done | by intros [? _]].
    + rewrite IH. split; [by intros ? | by intros [_ ?]].
Qed.

Lemma PyDict_keys_set d k v :
  PyDict.keys (PyDict.set k v d)
  = match PyDict.get k d with
    | Some _ => PyDict.keys d
    | None => PyDict.keys d ++ [k]
    end.
Proof.
  destruct (PyDict.get k d) as [v0|] eqn:Hget.
  - apply PyDict_keys_set_seen. by rewrite Hget.
  - rewrite (PyDict_set_unseen d k v Hget). unfold PyDict.keys. by rewrite map_app.
Qed.

Lemma PyDict_set_Forall (P : Z * V -> Prop) d k v :
  Forall P d -> P (k, v) -> Forall P (PyDict.set k v d).
Proof.
  intros Hd Hkv. induction Hd as [|[k' v'] d Hhead Hd IH]; simpl.
  - by constructor.
  - destruct (Z.eqb_spec k k') as [->|Hne]; by constructor.
Qed.

Lemma PyDict_set_NoDup d k v :
  NoDup (PyDict.keys d) -> NoDup (PyDict.keys (PyDict.set k v d)).
Proof.
  intros Hd. rewrite PyDict_keys_set.
  destruct (PyDict.get k d) eqn:Hget; [done |].
  apply NoDup_app. split; [done |]. split; [| apply NoDup_singleton].
  intros k' Hin ->%list_elem_of_singleton. by apply PyDict_get_None_keys in Hget.
Qed.

Lemma PyDict_get_In d k v : PyDict.get k d = Some v -> (k, v) ∈ d.
Proof.
  induction d as [|[k' v'] d IH]; simpl; [done |].
  destruct (Z.eqb_spec k k') as [->|Hne].
  - intros [= ->]. apply list_elem_of_here.
  - intros H. apply list_elem_of_further. by apply IH.
Qed.

Lemma PyDict_get_comprehension_from (key : V -> Z) (xs : list V) d k :
  PyDict.get k (fold_left (fun d x => PyDict.set (key x) x d) xs d)
  = match last (List.filter (fun x => Z.eqb (key x) k) xs) with
    | Some x => Some x
    | None => PyDict.get k d
    end.
Proof.
  revert d. induction xs as [|x xs IH] using rev_ind; intros d; [done |].
  rewrite fold_left_app, List.filter_app. simpl.
  destruct (Z.eqb_spec (key x) k) as [<-|Hne].
  - by rewrite last_snoc, PyDict_get_set_eq.
  - rewrite app_nil_r, PyDict_get_set_ne by done. apply IH.
Qed.

End PyDictKeys.

Lemma merge_tool_call_well_keyed (d : PyDict.t ChoiceDeltaToolCall.t)
    (new : ChoiceDeltaToolCall.t) :
  well_keyed d -> well_keyed (OpenAIStreamStructuredResponse.merge_tool_call d new).
Proof.
  intros [Hnodup Hindex]. unfold OpenAIStreamStructuredResponse.merge_tool_call.
  destruct (PyDict.get (ChoiceDeltaToolCall.index new) d) as [current|] eqn:Hget.
  - assert (ChoiceDeltaToolCall.index current = ChoiceDeltaToolCall.index new) as Hcurrent.
    { apply PyDict_get_In in Hget. rewrite Forall_forall in Hindex.
      by apply (Hindex _ Hget). }
    destruct (ChoiceDeltaToolCall.function current) as [cf|].
    + destruct (ChoiceDeltaToolCall.function new) as [nf|]; [| done].
      split; [by apply PyDict_set_NoDup | by apply PyDict_set_Forall].
    + split; [by apply PyDict_set_NoDup | by apply PyDict_set_Forall].
  - split; [by apply PyDict_set_NoDup | by apply PyDict_set_Forall].
Qed.

Lemma merge_tool_calls_well_keyed (news : list ChoiceDeltaToolCall.t) :
  forall d,
    well_keyed d ->
    well_keyed (fold_left OpenAIStreamStructuredResponse.merge_tool_call news d).
Proof.
  induction news as [|new news IH]; intros d Hd; simpl; [done |].
  by apply IH, merge_tool_call_well_keyed.
Qed.

Lemma comprehension_well_keyed (tool_calls : list ChoiceDeltaToolCall.t) :
  well_keyed (PyDict.comprehension ChoiceDeltaToolCall.index tool_calls).
Proof.
  unfold PyDict.comprehension.
  assert (forall d : PyDict.t ChoiceDeltaToolCall.t,
            well_keyed d ->
            well_keyed
              (fold_left (fun d x => PyDict.set (ChoiceDeltaToolCall.index x) x d)
                 tool_calls d)) as Hfold.
  { induction tool_calls as [|c tool_calls IH]; intros d [Hnodup Hindex]; simpl;
      [done |].
    apply IH. split; [by apply PyDict_set_NoDup | by apply PyDict_set_Forall]. }
  apply Hfold. split; [apply NoDup_nil_2 | constructor].
Qed.

Lemma structured_anext_well_keyed (s : OpenAIStreamStructuredResponse.t) :
  well_keyed (OpenAIStreamStructuredResponse._delta_tool_calls s) ->
  well_keyed
    (OpenAIStreamStructuredResponse._delta_tool_calls
       (fst (OpenAIStreamStructuredResponse.__anext__ s))).
Proof.
  intros Hs. unfold OpenAIStreamStructuredResponse.__anext__.
  destruct (OpenAIStreamStructuredResponse._response s) as [|chunk rest]; [done |].
  destruct (ChatCompletionChunk.choices chunk) as [|choice choices]; [done |].
  destruct (ChunkChoice.finish_reason choice); [done |].
  destruct (ChoiceDelta.content (ChunkChoice.delta choice)); [done |].
  simpl. by apply merge_tool_calls_well_keyed.
Qed.

(** X5. The in-progress map of a streamed structured response always holds
    each entry under the entry's own index and no index twice, from the
    bootstrap on and after any number of [__anext__]; so [get] returns at
    most one call per index. *)
Theorem structured_map_well_keyed
    (stream : list ChatCompletionChunk.t) (s : OpenAIStreamStructuredResponse.t) (n : nat) :
  _process_streamed_response stream = Ok (StreamStructured s) ->
  well_keyed
    (OpenAIStreamStructuredResponse._delta_tool_calls (structured_anext_times n s)).
Proof.
  intros Hs.
  assert (well_keyed (OpenAIStreamStructuredResponse._delta_tool_calls s)) as Hstart.
  { pose proof (bootstrap_loop_branch stream None Cost.empty) as Hbranch.
    fold (_process_streamed_response stream) in Hbranch. rewrite Hs in Hbranch.
    destruct (List.find has_content_or_tool_calls stream) as [chunk|]; [| done].
    destruct Hbranch as (r & [= <-] & Hr).
    destruct (chunk_content chunk).
    - by destruct Hr as (t & [=] & _).
    - destruct Hr as (s' & [= <-] & ->). apply comprehension_well_keyed. }
  clear Hs. revert s Hstart. induction n as [|n IH]; intros s Hstart; simpl; [done |].
  by apply IH, structured_anext_well_keyed.
Qed.

(** X5 at the stream of the fragments scenario, once it is read. *)
Lemma structured_map_well_keyed_witness :
  exists s,
    _process_streamed_response Scenario.fragments_stream = Ok (StreamStructured s) /\
    PyDict.keys (OpenAIStreamStructuredResponse._delta_tool_calls (structured_anext_times 2 s))
    = [0; 1] /\
    NoDup
      (PyDict.keys
         (OpenAIStreamStructuredResponse._delta_tool_calls (structured_anext_times 2 s))).
Proof.
  eexists. split; [reflexivity |]. split; [reflexivity |].
  exact (proj1 (structured_map_well_keyed Scenario.fragments_stream _ 2 eq_refl)).
Defined.

Lemma persists_refl (d : PyDict.t ChoiceDeltaToolCall.t) : persists d d.
Proof.
  split; [exists []; by rewrite app_nil_r |]. intros k c Hget. by exists c.
Qed.

Lemma persists_trans (d1 d2 d3 : PyDict.t ChoiceDeltaToolCall.t) :
  persists d1 d2 -> persists d2 d3 -> persists d1 d3.
Proof.
  intros [[added1 Hkeys1] Hget1] [[added2 Hkeys2] Hget2]. split.
  - exists (added1 ++ added2). by rewrite Hkeys2, Hkeys1, app_assoc.
  - intros k c Hc. destruct (Hget1 k c Hc) as (c' & Hc' & Hid & Hindex).
    destruct (Hget2 k c' Hc') as (c'' & Hc'' & Hid' & Hindex').
    exists c''. split; [done |]. split; congruence.
Qed.

Lemma persists_set (d : PyDict.t ChoiceDeltaToolCall.t) (k : Z) (v : ChoiceDeltaToolCall.t) :
  (forall c,
     PyDict.get k d = Some c ->
     ChoiceDeltaToolCall.id v = ChoiceDeltaToolCall.id c /\
     ChoiceDeltaToolCall.index v = ChoiceDeltaToolCall.index c) ->
  persists d (PyDict.set k v d).
Proof.
  intros Hv. split.
  - rewrite PyDict_keys_set. destruct (PyDict.get k d).
    + exists []. by rewrite app_nil_r.
    + by exists [k].
  - intros k' c Hc. destruct (Z.eq_dec k k') as [<-|Hne].
    + exists v. split; [apply PyDict_get_set_eq | by apply Hv].
    + exists c. by rewrite PyDict_get_set_ne.
Qed.

Lemma merge_tool_call_persists (d : PyDict.t ChoiceDeltaToolCall.t)
    (new : ChoiceDeltaToolCall.t) :
  persists d (OpenAIStreamStructuredResponse.merge_tool_call d new).
Proof.
  unfold OpenAIStreamStructuredResponse.merge_tool_call.
  destruct (PyDict.get (ChoiceDeltaToolCall.index new) d) as [current|] eqn:Hget.
  - destruct (ChoiceDeltaToolCall.function current) as [cf|].
    + destruct (ChoiceDeltaToolCall.function new) as [nf|]; [| apply persists_refl].
      apply persists_set. rewrite Hget. by intros c [= <-].
    + apply persists_set. rewrite Hget. by intros c [= <-].
  - apply persists_set. by rewrite Hget.
Qed.

Lemma merge_tool_calls_persists (news : list ChoiceDeltaToolCall.t) :
  forall d, persists d (fold_left OpenAIStreamStructuredResponse.merge_tool_call news d).
Proof.
  induction news as [|new news IH]; intros d; simpl; [apply persists_refl |].
  eapply persists_trans; [apply merge_tool_call_persists | apply IH].
Qed.

Lemma structured_anext_persists (s : OpenAIStreamStructuredResponse.t) :
  persists (OpenAIStreamStructuredResponse._delta_tool_calls s)
    (OpenAIStreamStructuredResponse._delta_tool_calls
       (fst (OpenAIStreamStructuredResponse.__anext__ s))).
Proof.
  unfold OpenAIStreamStructuredResponse.__anext__.
  destruct (OpenAIStreamStructuredResponse._response s) as [|chunk rest];
    [apply persists_refl |].
  destruct (ChatCompletionChunk.choices chunk) as [|choice choices];
    [apply persists_refl |].
  destruct (ChunkChoice.finish_reason choice); [apply persists_refl |].
  destruct (ChoiceDelta.content (ChunkChoice.delta choice)); [apply persists_refl |].
  apply merge_tool_calls_persists.
Qed.

(** X6. The structured accumulator never drops, moves or re-identifies a
    call: whatever chunks [__anext__] reads, every index already in the map
    stays in it at the same place (new indexes are added after the existing
    ones) and keeps the [id] it had, the ids that later deltas of the same
    index carry being ignored. *)
Theorem structured_entries_persist (s : OpenAIStreamStructuredResponse.t) (n : nat) :
  let d := OpenAIStreamStructuredResponse._delta_tool_calls s in
  let d' := OpenAIStreamStructuredResponse._delta_tool_calls (structured_anext_times n s) in
  (exists added, PyDict.keys d' = PyDict.keys d ++ added) /\
  forall k c,
    PyDict.get k d = Some c ->
    exists c',
      PyDict.get k d' = Some c' /\
      ChoiceDeltaToolCall.id c' = ChoiceDeltaToolCall.id c /\
      ChoiceDeltaToolCall.index c' = ChoiceDeltaToolCall.index c.
Proof.
  simpl. change (persists (OpenAIStreamStructuredResponse._delta_tool_calls s)
                   (OpenAIStreamStructuredResponse._delta_tool_calls
                      (structured_anext_times n s))).
  revert s. induction n as [|n IH]; intros s; simpl; [apply persists_refl |].
  eapply persists_trans; [apply structured_anext_persists | apply IH].
Qed.

(** X6 at a concrete accumulator: the call 0 has the id [call_0]; a delta of
    index 0 that carries the id [other] and a delta of index 1 arrive; call 0
    is still first and still [call_0]. *)
Lemma structured_entries_persist_witness :
  exists c',
    PyDict.get 0
      (OpenAIStreamStructuredResponse._delta_tool_calls
         (structured_anext_times 1 Scenario.two_ids_accumulator))
    = Some c' /\
    ChoiceDeltaToolCall.id c' = Some "call_0".
Proof.
  destruct (structured_entries_persist Scenario.two_ids_accumulator 1) as [_ Hget].
  destruct (Hget 0 (Scenario.delta_call 0 (Some "call_0") (Some "f") None) eq_refl)
    as (c' & Hc' & Hid & _).
  exists c'. split; [exact Hc' | exact Hid].
Defined.

Lemma structured_anext_argument (s : OpenAIStreamStructuredResponse.t)
    (chunk : ChatCompletionChunk.t) (rest : list ChatCompletionChunk.t)
    (index : Z) (fragment : string) (current : ChoiceDeltaToolCall.t)
    (name : option string) (arguments : string) :
  OpenAIStreamStructuredResponse._response s = chunk :: rest ->
  argument_chunk index fragment chunk ->
  PyDict.get index (OpenAIStreamStructuredResponse._delta_tool_calls s) = Some current ->
  ChoiceDeltaToolCall.function current
  = Some (ChoiceDeltaToolCallFunction.mk name (Some arguments)) ->
  OpenAIStreamStructuredResponse.__anext__ s
  = (OpenAIStreamStructuredResponse.mk rest
       (PyDict.set index
          (ChoiceDeltaToolCall.mk (ChoiceDeltaToolCall.index current)
             (ChoiceDeltaToolCall.id current)
             (Some (ChoiceDeltaToolCallFunction.mk name (Some (arguments +:+ fragment)))))
          (OpenAIStreamStructuredResponse._delta_tool_calls s))
       (OpenAIStreamStructuredResponse._timestamp s)
       (Cost.add (OpenAIStreamStructuredResponse._cost s) (_map_cost chunk)),
     Ok tt).
Proof.
  intros Hresponse (choice & choices & id & Hchoices & Hfinish & Hdelta) Hget Hfunction.
  unfold OpenAIStreamStructuredResponse.__anext__.
  rewrite Hresponse, Hchoices, Hfinish, Hdelta. simpl.
  unfold OpenAIStreamStructuredResponse.merge_tool_call. simpl.
  rewrite Hget, Hfunction. simpl. by destruct name.
Qed.

(** X7. The arguments of a call are the fragments in their order of arrival:
    when the map holds, for an index, arguments [a], and the next chunks each
    bring one fragment for that index, then after one [__anext__] per chunk
    the entry holds [a] followed by all the fragments, appended from left to
    right, with its name and id as they were; the other indexes and the order
    of the map are untouched, and if the name is known [get] returns the call
    with exactly that text. *)
Theorem structured_arguments_concatenate (chunks : list ChatCompletionChunk.t)
    (fragments : list string) (index : Z) :
  Forall2 (fun chunk fragment => argument_chunk index fragment chunk) chunks fragments ->
  forall (s : OpenAIStreamStructuredResponse.t) (rest : list ChatCompletionChunk.t)
         (current : ChoiceDeltaToolCall.t) (name : option string) (a : string),
    OpenAIStreamStructuredResponse._response s = chunks ++ rest ->
    PyDict.get index (OpenAIStreamStructuredResponse._delta_tool_calls s) = Some current ->
    ChoiceDeltaToolCall.function current
    = Some (ChoiceDeltaToolCallFunction.mk name (Some a)) ->
    let s' := structured_anext_times (length chunks) s in
    let whole := fold_left (fun text fragment => text +:+ fragment) fragments a in
    OpenAIStreamStructuredResponse._response s' = rest /\
    PyDict.get index (OpenAIStreamStructuredResponse._delta_tool_calls s')
    = Some (ChoiceDeltaToolCall.mk (ChoiceDeltaToolCall.index current)
              (ChoiceDeltaToolCall.id current)
              (Some (ChoiceDeltaToolCallFunction.mk name (Some whole)))) /\
    (forall k,
       k <> index ->
       PyDict.get k (OpenAIStreamStructuredResponse._delta_tool_calls s')
       = PyDict.get k (OpenAIStreamStructuredResponse._delta_tool_calls s)) /\
    PyDict.keys (OpenAIStreamStructuredResponse._delta_tool_calls s')
    = PyDict.keys (OpenAIStreamStructuredResponse._delta_tool_calls s) /\
    forall tool_name,
      name = Some tool_name ->
      exists calls,
        OpenAIStreamStructuredResponse.get s'
        = ModelStructuredResponse calls (OpenAIStreamStructuredResponse._timestamp s) /\
        ToolCall.mk tool_name (ArgsJson whole) (ChoiceDeltaToolCall.id current) ∈ calls.
Proof.
  induction 1 as [|chunk fragment chunks fragments Hchunk _ IH];
    intros s rest current name a Hresponse Hget Hfunction; simpl.
  - split; [done |]. split; [by destruct current; simpl in *; subst |].
    split; [done |]. split; [done |].
    intros tool_name ->. eexists. split; [apply get_spec |].
    apply list_elem_of_omap. exists current. split; [by eapply PyDict_get_values |].
    unfold completed_call. by rewrite Hfunction.
  - rewrite (structured_anext_argument s chunk (chunks ++ rest) index fragment current
               name a Hresponse Hchunk Hget Hfunction). simpl.
    set (current' := ChoiceDeltaToolCall.mk (ChoiceDeltaToolCall.index current)
                       (ChoiceDeltaToolCall.id current)
                       (Some (ChoiceDeltaToolCallFunction.mk name (Some (a +:+ fragment))))).
    set (s1 := OpenAIStreamStructuredResponse.mk (chunks ++ rest)
                 (PyDict.set index current'
                    (OpenAIStreamStructuredResponse._delta_tool_calls s))
                 (OpenAIStreamStructuredResponse._timestamp s)
                 (Cost.add (OpenAIStreamStructuredResponse._cost s) (_map_cost chunk))).
    destruct (IH s1 rest current' name (a +:+ fragment) eq_refl
                (PyDict_get_set_eq _ _ _) eq_refl)
      as (Hrest & Hentry & Hothers & Hkeys & Hcall).
    split; [exact Hrest |]. split; [exact Hentry |].
    split. { intros k Hk. rewrite Hothers by done. by apply PyDict_get_set_ne. }
    split. { rewrite Hkeys. apply PyDict_keys_set_seen. by rewrite Hget. }
    exact Hcall.
Qed.

(** X7 at the fragments scenario: the name with empty arguments, then the two
    fragments. *)
Lemma structured_arguments_concatenate_witness :
  PyDict.get 0
    (OpenAIStreamStructuredResponse._delta_tool_calls
       (structured_anext_times 2
          (OpenAIStreamStructuredResponse.mk
             [Scenario.chunk_of Scenario.T0 None
                (Some [Scenario.delta_call 0 None None (Some Scenario.args_fragment_1)]);
              Scenario.chunk_of Scenario.T0 None
                (Some [Scenario.delta_call 0 None None (Some Scenario.args_fragment_2)])]
             [(0, Scenario.delta_call 0 (Some "call_0") (Some "final_result")
                    (Some EmptyString))]
             Scenario.T0 Cost.empty)))
  = Some (Scenario.delta_call 0 (Some "call_0") (Some "final_result")
            (Some Scenario.args_whole)).
Proof.
  assert (Forall2 (fun chunk fragment => argument_chunk 0 fragment chunk)
            [Scenario.chunk_of Scenario.T0 None
               (Some [Scenario.delta_call 0 None None (Some Scenario.args_fragment_1)]);
             Scenario.chunk_of Scenario.T0 None
               (Some [Scenario.delta_call 0 None None (Some Scenario.args_fragment_2)])]
            [Scenario.args_fragment_1; Scenario.args_fragment_2]) as Hchunks.
  { repeat constructor; by eexists _, _, _. }
  destruct (structured_arguments_concatenate _ _ 0 Hchunks
              (OpenAIStreamStructuredResponse.mk
                 [Scenario.chunk_of Scenario.T0 None
                    (Some [Scenario.delta_call 0 None None (Some Scenario.args_fragment_1)]);
                  Scenario.chunk_of Scenario.T0 None
                    (Some [Scenario.delta_call 0 None None (Some Scenario.args_fragment_2)])]
                 [(0, Scenario.delta_call 0 (Some "call_0") (Some "final_result")
                        (Some EmptyString))]
                 Scenario.T0 Cost.empty)
              [] _ (Some "final_result") EmptyString eq_refl eq_refl eq_refl)
    as (_ & Hentry & _).
  exact Hentry.
Defined.

(** ** How [__anext__] ends *)

(** X8. An [__anext__] that does not return normally leaves what has been
    accumulated as it was. On the structured branch it ends with
    [StopAsyncIteration] or, on a chunk with content, [AssertionError], and
    the map is unchanged; in particular the deltas of a chunk that has a
    finish reason are never merged. On the text branch it ends with
    [StopAsyncIteration] or, on a chunk with neither finish reason nor
    content, [AssertionError], and the buffer is unchanged. On an exhausted
    stream both raise [StopAsyncIteration] and change nothing at all. *)
Theorem anext_failure_keeps_accumulated :
  (forall s e,
     snd (OpenAIStreamStructuredResponse.__anext__ s) = Raise e ->
     (e = StopAsyncIteration \/ e = AssertionError) /\
     OpenAIStreamStructuredResponse._delta_tool_calls
       (fst (OpenAIStreamStructuredResponse.__anext__ s))
     = OpenAIStreamStructuredResponse._delta_tool_calls s) /\
  (forall s chunk rest choice choices reason,
     OpenAIStreamStructuredResponse._response s = chunk :: rest ->
     ChatCompletionChunk.choices chunk = choice :: choices ->
     ChunkChoice.finish_reason choice = Some reason ->
     OpenAIStreamStructuredResponse.__anext__ s
     = (OpenAIStreamStructuredResponse.mk rest
          (OpenAIStreamStructuredResponse._delta_tool_calls s)
          (OpenAIStreamStructuredResponse._timestamp s)
          (Cost.add (OpenAIStreamStructuredResponse._cost s) (_map_cost chunk)),
        Raise StopAsyncIteration)) /\
  (forall t e,
     snd (OpenAIStreamTextResponse.__anext__ t) = Raise e ->
     (e = StopAsyncIteration \/ e = AssertionError) /\
     OpenAIStreamTextResponse._first t = None /\
     OpenAIStreamTextResponse._buffer (fst (OpenAIStreamTextResponse.__anext__ t))
     = OpenAIStreamTextResponse._buffer t) /\
  (forall s,
     OpenAIStreamStructuredResponse._response s = [] ->
     OpenAIStreamStructuredResponse.__anext__ s = (s, Raise StopAsyncIteration)) /\
  (forall t,
     OpenAIStreamTextResponse._first t = None ->
     OpenAIStreamTextResponse._response t = [] ->
     OpenAIStreamTextResponse.__anext__ t = (t, Raise StopAsyncIteration)).
Proof.
  split; [| split; [| split; [| split]]].
  - intros s e. unfold OpenAIStreamStructuredResponse.__anext__.
    destruct (OpenAIStreamStructuredResponse._response s) as [|chunk rest]; simpl.
    { intros [= <-]. by split; [left |]. }
    destruct (ChatCompletionChunk.choices chunk) as [|choice choices]; simpl.
    { intros [= <-]. by split; [left |]. }
    destruct (ChunkChoice.finish_reason choice); simpl.
    { intros [= <-]. by split; [left |]. }
    destruct (ChoiceDelta.content (ChunkChoice.delta choice)); simpl; [| done].
    intros [= <-]. by split; [right |].
  - intros s chunk rest choice choices reason Hresponse Hchoices Hfinish.
    unfold OpenAIStreamStructuredResponse.__anext__.
    by rewrite Hresponse, Hchoices, Hfinish.
  - intros t e. unfold OpenAIStreamTextResponse.__anext__.
    destruct (OpenAIStreamTextResponse._first t); simpl; [done |].
    destruct (OpenAIStreamTextResponse._response t) as [|chunk rest]; simpl.
    { intros [= <-]. by split; [left |]. }
    destruct (ChatCompletionChunk.choices chunk) as [|choice choices]; simpl.
    { intros [= <-]. by split; [left |]. }
    destruct (ChunkChoice.finish_reason choice),
             (ChoiceDelta.content (ChunkChoice.delta choice)); simpl; try done.
    intros [= <-]. by split; [right |].
  - intros s Hresponse. unfold OpenAIStreamStructuredResponse.__anext__.
    by rewrite Hresponse.
  - intros t Hfirst Hresponse. unfold OpenAIStreamTextResponse.__anext__.
    by rewrite Hfirst, Hresponse.
Qed.

(** ** The first chunk of a structured response *)

Lemma bootstrap_loop_structured (chunk : ChatCompletionChunk.t)
    (rest : list ChatCompletionChunk.t) (tool_calls : list ChoiceDeltaToolCall.t)
    (timestamp : option datetime) (start_cost : Cost.t) :
  chunk_content chunk = None ->
  chunk_tool_calls chunk = Some tool_calls ->
  _process_streamed_response_loop (chunk :: rest) timestamp start_cost
  = Ok (StreamStructured
          (OpenAIStreamStructuredResponse.mk rest
             (PyDict.comprehension ChoiceDeltaToolCall.index tool_calls)
             (py_or timestamp (fromtimestamp (ChatCompletionChunk.created chunk)))
             (Cost.add start_cost (_map_cost chunk)))).
Proof.
  unfold chunk_content, chunk_tool_calls. simpl.
  destruct (ChatCompletionChunk.choices chunk) as [|choice choices]; [done |].
  by intros -> ->.
Qed.

(** X9. The deltas of the chunk that starts a structured response are not
    merged: the map holds, for each index, the last delta of that chunk with
    this index, as it came, and nothing for the other indexes; an earlier
    delta of the same index in that chunk is replaced, not appended to. *)
Theorem bootstrap_first_chunk_last_delta_wins
    (skipped rest : list ChatCompletionChunk.t) (chunk : ChatCompletionChunk.t)
    (tool_calls : list ChoiceDeltaToolCall.t) :
  Forall (fun chunk => has_content_or_tool_calls chunk = false) skipped ->
  chunk_content chunk = None ->
  chunk_tool_calls chunk = Some tool_calls ->
  exists s,
    _process_streamed_response (skipped ++ chunk :: rest) = Ok (StreamStructured s) /\
    OpenAIStreamStructuredResponse._response s = rest /\
    forall k,
      PyDict.get k (OpenAIStreamStructuredResponse._delta_tool_calls s)
      = last_delta k tool_calls.
Proof.
  intros Hskipped Hcontent Hcalls. unfold _process_streamed_response.
  rewrite bootstrap_loop_skip by done.
  rewrite (bootstrap_loop_structured _ _ _ _ _ Hcontent Hcalls).
  eexists. split; [done |]. split; [done |]. intros k. simpl.
  unfold PyDict.comprehension, last_delta.
  rewrite PyDict_get_comprehension_from. simpl.
  by destruct (last _).
Qed.

(** X9 at a first chunk that brings the name with the fragment [{] and then,
    for the same index, the fragment [}]: the map holds the second delta
    alone, without the name, and [get] returns no call. *)
Lemma bootstrap_first_chunk_last_delta_wins_witness :
  exists s,
    _process_streamed_response [Scenario.repeated_index_chunk] = Ok (StreamStructured s) /\
    PyDict.get 0 (OpenAIStreamStructuredResponse._delta_tool_calls s)
    = Some (Scenario.delta_call 0 None None (Some "}")) /\
    OpenAIStreamStructuredResponse.get s = ModelStructuredResponse [] Scenario.T0.
Proof.
  destruct (bootstrap_first_chunk_last_delta_wins [] [] Scenario.repeated_index_chunk
              [Scenario.delta_call 0 (Some "call_0") (Some "f") (Some "{");
               Scenario.delta_call 0 None None (Some "}")])
    as (s & Hs & _ & Hget).
  - constructor.
  - reflexivity.
  - reflexivity.
  - exists s. split; [exact Hs |]. split; [exact (Hget 0) |].
    simpl in Hs. injection Hs as <-. reflexivity.
Defined.

(** ** Usage and cost *)

(** X10. [_map_cost] copies the three token counts of the usage and merges
    the two detail mappings with [dict.update], the completion details first
    and the prompt details after them: a detail present in both (such as
    [audio_tokens]) is reported with the prompt's value, the completion's
    being overwritten, and a response without usage costs [Cost()]. *)
Theorem map_cost_details {R : Type} `{HasUsage R} (response : R) :
  (usage_of response = None -> _map_cost response = Cost.empty) /\
  forall usage,
    usage_of response = Some usage ->
    Cost.request_tokens (_map_cost response) = CompletionUsage.prompt_tokens usage /\
    Cost.response_tokens (_map_cost response) = CompletionUsage.completion_tokens usage /\
    Cost.total_tokens (_map_cost response) = CompletionUsage.total_tokens usage /\
    forall key,
      Cost.details (_map_cost response) !! key
      = match CompletionUsage.prompt_tokens_details usage ≫= (fun d => d !! key) with
        | Some v => Some v
        | None => CompletionUsage.completion_tokens_details usage ≫= (fun d => d !! key)
        end.
Proof.
  unfold _map_cost. split; [by intros -> |].
  intros usage ->. simpl. split; [done |]. split; [done |]. split; [done |].
  intros key.
  destruct (CompletionUsage.prompt_tokens_details usage) as [p|],
           (CompletionUsage.completion_tokens_details usage) as [c|]; simpl;
    rewrite ?lookup_union, ?lookup_empty;
    try destruct (p !! key); try destruct (c !! key); done.
Qed.

(** X10 at a usage whose completion details count 4 audio tokens and whose
    prompt details count 1: the cost reports 1, and keeps the details that
    only one side has. *)
Lemma map_cost_details_witness :
  Cost.details (_map_cost Scenario.audio_chunk) !! "audio_tokens" = Some 1 /\
  Cost.details (_map_cost Scenario.audio_chunk) !! "reasoning_tokens" = Some 9 /\
  Cost.details (_map_cost Scenario.audio_chunk) !! "cached_tokens" = Some 6.
Proof.
  unfold Scenario.audio_chunk.
  destruct (map_cost_details
              (ChatCompletionChunk.mk Scenario.T0 [] (Some Scenario.audio_usage)))
    as [_ Hsome].
  destruct (Hsome Scenario.audio_usage eq_refl) as (_ & _ & _ & Hdetails).
  rewrite !Hdetails. by vm_compute.
Defined.

(** ** Which histories can be sent *)

Section ResultMapFacts.
Context {A B : Type}.
Implicit Types (f : A -> result B) (xs : list A) (ys : list B).

Lemma result_map_Ok f xs ys :
  result_map f xs = Ok ys -> Forall2 (fun x y => f x = Ok y) xs ys.
Proof.
  revert ys. induction xs as [|x xs IH]; intros ys; simpl.
  - intros [= <-]. constructor.
  - destruct (f x) as [y|e] eqn:Hx; simpl; [| done].
    destruct (result_map f xs) as [ys'|e]; simpl; [| done].
    intros [= <-]. constructor; [done | by apply IH].
Qed.

Lemma result_map_Ok_iff f xs :
  (exists ys, result_map f xs = Ok ys) <-> Forall (fun x => exists y, f x = Ok y) xs.
Proof.
  induction xs as [|x xs IH]; simpl.
  - split; [constructor | by eexists].
  - rewrite Forall_cons, <- IH. destruct (f x) as [y|e]; simpl.
    + destruct (result_map f xs) as [ys|e]; simpl.
      * split; [intros _; split; by eexists | by eexists].
      * split; [by intros [? ?] | by intros [_ [? ?]]].
    + split; [by intros [? ?] | by intros [[? ?] _]].
Qed.

Lemma result_map_Raise f xs e :
  result_map f xs = Raise e -> exists x, x ∈ xs /\ f x = Raise e.
Proof.
  induction xs as [|x xs IH]; simpl; [done |].
  destruct (f x) as [y|e'] eqn:Hx; simpl.
  - destruct (result_map f xs) as [ys|e']; simpl; [done |].
    intros [= <-]. destruct (IH eq_refl) as (x' & Hin & Hx').
    exists x'. split; [by apply list_elem_of_further | done].
  - intros [= <-]. exists x. split; [apply list_elem_of_here | done].
Qed.

End ResultMapFacts.

Lemma map_tool_call_accepts (t : ToolCall.t) :
  ((exists p, _map_tool_call t = Ok p) <-> mappable_call t = true) /\
  forall e, _map_tool_call t = Raise e -> e = AssertionError.
Proof.
  unfold _map_tool_call, mappable_call.
  destruct (ToolCall.args t), (ToolCall.tool_call_id t); simpl;
    (split; [split |]);
    first [ done | by eexists | by intros [? ?] | by intros e [= <-] ].
Qed.

Lemma map_tool_calls_accepts (calls : list ToolCall.t) :
  ((exists ps, result_map _map_tool_call calls = Ok ps)
   <-> forallb mappable_call calls = true) /\
  forall e, result_map _map_tool_call calls = Raise e -> e = AssertionError.
Proof.
  split.
  - rewrite result_map_Ok_iff, forallb_forall, Forall_forall.
    split; intros Hall t Hin.
    + apply map_tool_call_accepts, Hall. by apply list_elem_of_In.
    + apply map_tool_call_accepts, Hall. by apply list_elem_of_In.
  - intros e (t & _ & Ht)%result_map_Raise. by apply (map_tool_call_accepts t).
Qed.

(** X11. [_map_message] maps every message except those that lack what the
    provider needs: a [ToolReturn] without call id, a [RetryPrompt] that
    names a tool and has no call id, and a structured response one of whose
    calls has parsed arguments instead of raw JSON or has no call id. In
    these cases, and only in these, it fails, always with an
    [AssertionError]; a [RetryPrompt] that names no tool needs no id. *)
Theorem map_message_accepts (model_response_str : string -> string)
    (model_response : RetryContent -> string) (message : Message) :
  ((exists p, _map_message model_response_str model_response message = Ok p)
   <-> mappable message = true) /\
  forall e,
    _map_message model_response_str model_response message = Raise e ->
    e = AssertionError.
Proof.
  destruct message as [content|content ts|name content id ts|content name id ts|[content ts|calls ts]];
    simpl.
  - split; [split; [done | by eexists] | done].
  - split; [split; [done | by eexists] | done].
  - destruct id; simpl; (split; [split |]);
      first [ done | by eexists | by intros [? ?] | by intros e [= <-] ].
  - destruct name, id; simpl; (split; [split |]);
      first [ done | by eexists | by intros [? ?] | by intros e [= <-] ].
  - split; [split; [done | by eexists] | done].
  - destruct (map_tool_calls_accepts calls) as [Hiff Hraise].
    rewrite <- Hiff. destruct (result_map _map_tool_call calls) as [ps|e']; simpl.
    + split; [split; by eexists | done].
    + split; [split; by intros [? ?] |]. intros e [= <-]. by apply Hraise.
Qed.

(** X11 at two retry prompts without call id: the one that names no tool is
    sent as a user message, the one that names a tool is refused. *)
Lemma map_message_accepts_witness :
  _map_message id (fun _ => "retry") (RetryPrompt (RetryText "again") None None Scenario.T0)
  = Ok (ChatCompletionUserMessageParam "retry") /\
  _map_message id (fun _ => "retry")
    (RetryPrompt (RetryText "again") (Some "ret_a") None Scenario.T0)
  = Raise AssertionError.
Proof.
  split; [reflexivity |].
  destruct (map_message_accepts id (fun _ => "retry")
              (RetryPrompt (RetryText "again") (Some "ret_a") None Scenario.T0))
    as [_ Hraise].
  destruct (_map_message id (fun _ => "retry")
              (RetryPrompt (RetryText "again") (Some "ret_a") None Scenario.T0))
    as [p|e] eqn:Hmap; [discriminate Hmap |].
  by rewrite (Hraise e eq_refl).
Defined.

(** X12. [_completions_create] builds a request exactly when every message of
    the history can be mapped, and fails with an [AssertionError] otherwise.
    The request has one provider message per message of the history, asks for
    one choice of the agent's model, and is coherent: [tools],
    [parallel_tool_calls] and [tool_choice] are given together or not at all,
    the tools being the agent model's own list, and [stream_options] is given
    exactly for a streamed request. *)
Theorem completions_create_accepts (model_response_str : string -> string)
    (model_response : RetryContent -> string) (self : OpenAIAgentModel.t)
    (messages : list Message) (stream : bool) :
  ((exists params,
      _completions_create model_response_str model_response self messages stream = Ok params)
   <-> forallb mappable messages = true) /\
  (forall e,
     _completions_create model_response_str model_response self messages stream = Raise e ->
     e = AssertionError) /\
  forall params,
    _completions_create model_response_str model_response self messages stream = Ok params ->
    length (CompletionCreateParams.messages params) = length messages /\
    CompletionCreateParams.model params = OpenAIAgentModel.model_name self /\
    CompletionCreateParams.n params = 1 /\
    CompletionCreateParams.stream params = stream /\
    CompletionCreateParams.stream_options_include_usage params
    = (if stream then Some true else None) /\
    match OpenAIAgentModel.tools self with
    | [] =>
        CompletionCreateParams.tools params = None /\
        CompletionCreateParams.parallel_tool_calls params = None /\
        CompletionCreateParams.tool_choice params = None
    | _ :: _ =>
        CompletionCreateParams.tools params = Some (OpenAIAgentModel.tools self) /\
        CompletionCreateParams.parallel_tool_calls params = Some true /\
        is_Some (CompletionCreateParams.tool_choice params)
    end.
Proof.
  unfold _completions_create.
  pose proof (result_map_Ok_iff (_map_message model_response_str model_response) messages)
    as Hiff.
  pose proof (result_map_Raise (_map_message model_response_str model_response) messages)
    as Hraise.
  pose proof (result_map_Ok (_map_message model_response_str model_response) messages)
    as Hok.
  assert (Forall (fun m => exists p, _map_message model_response_str model_response m = Ok p)
            messages
          <-> forallb mappable messages = true) as Hall.
  { rewrite forallb_forall, Forall_forall. split; intros H m Hin;
      destruct (map_message_accepts model_response_str model_response m)
        as [[Hto Hfrom] _].
    - apply Hto, H. by apply list_elem_of_In.
    - apply Hfrom, H. by apply list_elem_of_In. }
  destruct (result_map _ messages) as [openai_messages|e0]; simpl.
  - split; [| split; [done |]].
    + rewrite <- Hall, <- Hiff. split; by eexists.
    + intros params [= <-]. simpl.
      split. { symmetry. by eapply Forall2_length, Hok. }
      do 4 (split; [done |]). unfold tool_choice_of.
      destruct (OpenAIAgentModel.tools self); [done |].
      split; [done |]. split; [done |].
      by destruct (OpenAIAgentModel.allow_text_result self); simpl; eexists.
  - split; [| split; [| done]].
    + rewrite <- Hall, <- Hiff. split; by intros [? ?].
    + intros e [= <-]. destruct (Hraise e0 eq_refl) as (m & _ & Hm).
      by apply (map_message_accepts model_response_str model_response m).
Qed.

(** ** Sending a response back *)

(** X13. Whatever [_process_response] returns can be sent back to the
    provider: [_map_message] never refuses it, and it yields the assistant
    message with the same calls (id, name and raw arguments, in the same
    order) or, for a text response, the same content. *)
Theorem process_response_maps_back (model_response_str : string -> string)
    (model_response : RetryContent -> string) (response : ChatCompletion.t)
    (r : ModelAnyResponse) :
  _process_response response = Ok r ->
  exists choice rest,
    ChatCompletion.choices response = choice :: rest /\
    _map_message model_response_str model_response (ModelResponse r)
    = Ok (assistant_param_of (Choice.message choice)).
Proof.
  unfold _process_response, assistant_param_of.
  destruct (ChatCompletion.choices response) as [|choice rest]; [done |].
  intros Hr. exists choice, rest. split; [done |].
  destruct (ChatCompletionMessage.tool_calls (Choice.message choice)) as [tool_calls|].
  - injection Hr as <-. simpl.
    assert (result_map _map_tool_call
              (map (fun c =>
                      ToolCall.from_json
                        (FunctionCall.name (ChatCompletionMessageToolCall.function c))
                        (FunctionCall.arguments (ChatCompletionMessageToolCall.function c))
                        (Some (ChatCompletionMessageToolCall.id c)))
                   tool_calls)
            = Ok (map tool_call_param_of tool_calls)) as ->; [| done].
    induction tool_calls as [|c tool_calls IH]; simpl; [done |]. by rewrite IH.
  - destruct (ChatCompletionMessage.content (Choice.message choice)); [| done].
    by injection Hr as <-.
Qed.

(** X13 at the response that has both tool calls and text. *)
Lemma process_response_maps_back_witness :
  exists r,
    _process_response Scenario.both_response = Ok r /\
    _map_message id (fun _ => "retry") (ModelResponse r)
    = Ok (ChatCompletionAssistantMessageParam None
            (Some [ChatCompletionMessageToolCallParam.mk "call_0" "final_result" "{}"])).
Proof.
  eexists. split; [reflexivity |].
  destruct (process_response_maps_back id (fun _ => "retry") Scenario.both_response _
              eq_refl)
    as (choice & rest & Hchoices & Hmap).
  injection Hchoices as <- <-. exact Hmap.
Defined.

Lemma completed_call_mappable (c : ChoiceDeltaToolCall.t) (call : ToolCall.t) :
  completed_call c = Some call ->
  mappable_call call = true <-> is_Some (ChoiceDeltaToolCall.id c).
Proof.
  unfold completed_call.
  destruct (ChoiceDeltaToolCall.function c) as [[[name|] [arguments|]]|]; simpl;
    try done.
  intros [= <-]. unfold mappable_call. simpl.
  destruct (ChoiceDeltaToolCall.id c); simpl.
  - split; [by eexists | done].
  - split; [done | by intros [? ?]].
Qed.

Lemma completed_calls_mappable (cs : list ChoiceDeltaToolCall.t) :
  forallb mappable_call (omap completed_call cs) = true
  <-> Forall (fun c => is_Some (completed_call c) -> is_Some (ChoiceDeltaToolCall.id c)) cs.
Proof.
  induction cs as [|c cs IH]; simpl.
  - split; [constructor | done].
  - rewrite Forall_cons, <- IH.
    destruct (completed_call c) as [call|] eqn:Hcall; simpl.
    + rewrite andb_true_iff, (completed_call_mappable c call Hcall).
      split; [intros [Hid Hcs]; by split | intros [Hid Hcs]; split; [| done]].
      apply Hid. by eexists.
    + split; [intros Hcs; split; [by intros [? ?] | done] | by intros [_ ?]].
Qed.

(** X14. What [get] materializes from a stream can be sent back exactly when
    every completed call of the map has received its id: a call whose name
    and arguments arrived without any id makes [_map_message] fail. *)
Theorem streamed_response_maps_back (model_response_str : string -> string)
    (model_response : RetryContent -> string) (s : OpenAIStreamStructuredResponse.t) :
  (exists p,
     _map_message model_response_str model_response
       (ModelResponse (OpenAIStreamStructuredResponse.get s)) = Ok p)
  <-> Forall (fun c => is_Some (completed_call c) -> is_Some (ChoiceDeltaToolCall.id c))
        (PyDict.values (OpenAIStreamStructuredResponse._delta_tool_calls s)).
Proof.
  rewrite get_spec, <- completed_calls_mappable.
  apply (map_message_accepts model_response_str model_response
           (ModelResponse
              (ModelStructuredResponse
                 (omap completed_call
                    (PyDict.values (OpenAIStreamStructuredResponse._delta_tool_calls s)))
                 (OpenAIStreamStructuredResponse._timestamp s)))).
Qed.

(** X14 at the fragments scenario, whose call 0 has its id, and at a map
    whose only call never got one. *)
Lemma streamed_response_maps_back_witness :
  (exists s p,
     _process_streamed_response Scenario.fragments_stream = Ok (StreamStructured s) /\
     _map_message id (fun _ => "retry")
       (ModelResponse (OpenAIStreamStructuredResponse.get (structured_anext_times 2 s)))
     = Ok p) /\
  ~ (exists p,
       _map_message id (fun _ => "retry")
         (ModelResponse
            (OpenAIStreamStructuredResponse.get
               (OpenAIStreamStructuredResponse.mk []
                  [(0, Scenario.delta_call 0 None (Some "f") (Some "{}"))]
                  Scenario.T0 Cost.empty)))
       = Ok p).
Proof.
  split.
  - eexists _, _. split; reflexivity.
  - rewrite streamed_response_maps_back. simpl.
    intros Hall. apply Forall_cons in Hall as [Hid _].
    destruct Hid as [? Hid]; [by eexists | discriminate Hid].
Defined.

(** ** When the iteration stops *)

(** X15. The two branches end differently. On the text branch [__anext__]
    raises [StopAsyncIteration] only once the first fragment is delivered and
    the stream is exhausted or its next chunk has no choice: a finish reason
    does not stop it. On the structured branch it raises it when the stream
    is exhausted, when the next chunk has no choice, and also as soon as the
    first choice of the next chunk has a finish reason. *)
Theorem anext_stops_iff :
  (forall t,
     snd (OpenAIStreamTextResponse.__anext__ t) = Raise StopAsyncIteration
     <-> OpenAIStreamTextResponse._first t = None /\
         match OpenAIStreamTextResponse._response t with
         | [] => True
         | chunk :: _ => ChatCompletionChunk.choices chunk = []
         end) /\
  (forall s,
     snd (OpenAIStreamStructuredResponse.__anext__ s) = Raise StopAsyncIteration
     <-> match OpenAIStreamStructuredResponse._response s with
         | [] => True
         | chunk :: _ =>
             match ChatCompletionChunk.choices chunk with
             | [] => True
             | choice :: _ => is_Some (ChunkChoice.finish_reason choice)
             end
         end).
Proof.
  split.
  - intros t. unfold OpenAIStreamTextResponse.__anext__.
    destruct (OpenAIStreamTextResponse._first t); simpl.
    { split; [done | by intros [? _]]. }
    destruct (OpenAIStreamTextResponse._response t) as [|chunk rest]; simpl; [done |].
    destruct (ChatCompletionChunk.choices chunk) as [|choice choices]; simpl; [done |].
    destruct (ChunkChoice.finish_reason choice),
             (ChoiceDelta.content (ChunkChoice.delta choice)); simpl;
      (split; [done | by intros [_ ?]]).
  - intros s. unfold OpenAIStreamStructuredResponse.__anext__.
    destruct (OpenAIStreamStructuredResponse._response s) as [|chunk rest]; simpl; [done |].
    destruct (ChatCompletionChunk.choices chunk) as [|choice choices]; simpl; [done |].
    destruct (ChunkChoice.finish_reason choice); simpl.
    { split; [by eexists | done]. }
    destruct (ChoiceDelta.content (ChunkChoice.delta choice)); simpl;
      (split; [done | by intros [? ?]]).
Qed.

(** X16. The usage that comes after the finish marker is counted on the text
    branch and left unread on the structured branch. When the stream still
    holds a chunk whose first choice has a finish reason and no content,
    followed by a chunk that has no choice (usage only): on the text branch
    the next [__anext__] returns normally and the one after it raises
    [StopAsyncIteration] with the usage of both chunks in the cost; on the
    structured branch the next [__anext__] already raises
    [StopAsyncIteration], with the usage-only chunk still in the stream and
    not in the cost. *)
Theorem trailing_usage_after_finish
    (finish_chunk usage_chunk : ChatCompletionChunk.t) (choice : ChunkChoice.t)
    (choices : list ChunkChoice.t) (reason : string) :
  ChatCompletionChunk.choices finish_chunk = choice :: choices ->
  ChunkChoice.finish_reason choice = Some reason ->
  ChoiceDelta.content (ChunkChoice.delta choice) = None ->
  ChatCompletionChunk.choices usage_chunk = [] ->
  (forall timestamp cost buffer,
     let t := OpenAIStreamTextResponse.mk None [finish_chunk; usage_chunk]
                timestamp cost buffer in
     snd (OpenAIStreamTextResponse.__anext__ t) = Ok tt /\
     OpenAIStreamTextResponse.__anext__ (fst (OpenAIStreamTextResponse.__anext__ t))
     = (OpenAIStreamTextResponse.mk None [] timestamp
          (Cost.add (Cost.add cost (_map_cost finish_chunk)) (_map_cost usage_chunk))
          buffer,
        Raise StopAsyncIteration)) /\
  (forall d timestamp cost,
     OpenAIStreamStructuredResponse.__anext__
       (OpenAIStreamStructuredResponse.mk [finish_chunk; usage_chunk] d timestamp cost)
     = (OpenAIStreamStructuredResponse.mk [usage_chunk] d timestamp
          (Cost.add cost (_map_cost finish_chunk)),
        Raise StopAsyncIteration)).
Proof.
  intros Hfinish Hreason Hcontent Husage. split.
  - intros timestamp cost buffer. simpl.
    unfold OpenAIStreamTextResponse.__anext__. simpl.
    rewrite Hfinish, Hreason, Hcontent. simpl. by rewrite Husage.
  - intros d timestamp cost. unfold OpenAIStreamStructuredResponse.__anext__. simpl.
    by rewrite Hfinish, Hreason.
Qed.

(** X16 at a finish chunk followed by a chunk reporting 5 prompt tokens: the
    text response ends with them in its cost, the structured response stops
    with a cost of none. *)
Lemma trailing_usage_after_finish_witness :
  Cost.request_tokens
    (OpenAIStreamTextResponse._cost
       (text_anext_times 2
          (OpenAIStreamTextResponse.mk None
             [Scenario.finish_chunk; Scenario.heartbeat Scenario.T0 5 3]
             Scenario.T0 Cost.empty [])))
  = 5 /\
  Cost.request_tokens
    (OpenAIStreamStructuredResponse._cost
       (fst (OpenAIStreamStructuredResponse.__anext__
               (OpenAIStreamStructuredResponse.mk
                  [Scenario.finish_chunk; Scenario.heartbeat Scenario.T0 5 3]
                  PyDict.empty Scenario.T0 Cost.empty))))
  = 0.
Proof.
  destruct (trailing_usage_after_finish Scenario.finish_chunk
              (Scenario.heartbeat Scenario.T0 5 3) _ _ "stop"
              eq_refl eq_refl eq_refl eq_refl)
    as [Htext Hstructured].
  split.
  - destruct (Htext Scenario.T0 Cost.empty []) as [_ Hsecond].
    cbn [text_anext_times]. by rewrite Hsecond.
  - by rewrite Hstructured.
Defined.
